(** * SDG&E Green Button billing: tariff classification and aggregation

    A shallow embedding of the two processors of the repository,

    - [sdge_gbd_processor.py]          (module [Hardcoded]), whose rates,
      holidays and time-of-use hours are literals of the program, and
    - [sdge_processor_configurable.py] (module [Configurable]), which reads
      them from a JSON document,

    followed by the properties of the tariff engine stated in the
    specification.

    Conventions of the embedding.
    - Python exceptions are values: a fallible function returns a [result].
    - A [dict] whose iteration order matters (the JSON objects, in document
      order) is an association list with unique keys.
    - Ingestion ([pd.read_csv], [pd.to_datetime]) is outside the core: a file
      reaches the processors as its metadata block and its rows, each row
      carrying an already parsed calendar date and clock time, or as the
      exception ingestion raised.
    - kWh quantities, prices and costs are the program's own numbers:
      binary64 floating point ([float]), with the IEEE 754 operations in
      round-to-nearest-even of [PrimFloat].  A decimal literal of the
      program or of the schedule document stands for the nearest binary64
      number, as it does in Python.  The two decimals of the printed
      summaries are not modelled: a printed line carries the number that is
      formatted. *)

From Stdlib Require Import Floats.
From Stdlib Require Import ZArith List String Ascii Bool Lia.
From Stdlib Require Import Permutation DecimalString OrdersEx Sorted.
From Stdlib Require Import DecimalZ.
Import ListNotations.

#[local] Set Warnings "-inexact-float".

Local Open Scope string_scope.
Local Open Scope list_scope.
Local Open Scope Z_scope.

(* ================================================================== *)
(** * Python values used by both processors *)
(* ================================================================== *)

Module Py.

(** Exceptions the processors can meet. *)
Inductive exn : Type :=
| KeyError (key : string)
| TypeError
| ValueError.

Inductive result (A : Type) : Type :=
| Ok (a : A)
| Raise (e : exn).

Arguments Ok {A} a.
Arguments Raise {A} e.

Definition bind {A B : Type} (r : result A) (k : A -> result B) : result B :=
  match r with
  | Ok a => k a
  | Raise e => Raise e
  end.

Notation "x <- r ;; k" := (bind r (fun x => k))
  (at level 61, r at next level, right associativity).

(** A comprehension or a row-wise [apply]: the first exception aborts it. *)
Fixpoint mapM {A B : Type} (f : A -> result B) (l : list A) : result (list B) :=
  match l with
  | [] => Ok []
  | a :: l' => b <- f a ;; bs <- mapM f l' ;; Ok (b :: bs)
  end.

(** [d.get(k)] and [d[k]] on a dict kept in insertion order. *)
Fixpoint dict_get {V : Type} (d : list (string * V)) (k : string) : option V :=
  match d with
  | [] => None
  | (k', v) :: d' => if String.eqb k' k then Some v else dict_get d' k
  end.

Definition getitem {V : Type} (d : list (string * V)) (k : string) : result V :=
  match dict_get d k with
  | Some v => Ok v
  | None => Raise (KeyError k)
  end.

(** [k in d]. *)
Definition contains {V : Type} (d : list (string * V)) (k : string) : bool :=
  match dict_get d k with
  | Some _ => true
  | None => false
  end.

(** [x in l] for a list of integers. *)
Definition isin (x : Z) (l : list Z) : bool := existsb (Z.eqb x) l.

(** [start <= hour < end]. *)
Definition in_range (hour : Z) (r : Z * Z) : bool :=
  (fst r <=? hour) && (hour <? snd r).

(** ** [str.replace] *)

(** Left-to-right scan; [skip] counts the characters of a replaced
    occurrence still to be dropped. *)
Fixpoint replace_from (old new : string) (skip : nat) (s : string) : string :=
  match s with
  | EmptyString => EmptyString
  | String c s' =>
      match skip with
      | S k => replace_from old new k s'
      | O =>
          if String.prefix old s
          then (new ++ replace_from old new (String.length old - 1) s')%string
          else String c (replace_from old new O s')
      end
  end.

(** With an empty [old], Python puts [new] around every character. *)
Fixpoint intersperse (new s : string) : string :=
  match s with
  | EmptyString => new
  | String c s' => (new ++ String c (intersperse new s'))%string
  end.

Definition str_replace (s old new : string) : string :=
  match old with
  | EmptyString => intersperse new s
  | String _ _ => replace_from old new O s
  end.

(** ** Calendar dates *)

Record date : Type := mkdate { year : Z; month : Z; day : Z }.

Definition date_eqb (a b : date) : bool :=
  (year a =? year b) && (month a =? month b) && (day a =? day b).

Record time : Type := mktime { hour : Z; minute : Z }.

Definition is_leap (y : Z) : bool :=
  (y mod 4 =? 0) && (negb (y mod 100 =? 0) || (y mod 400 =? 0)).

Definition days_in_month (y m : Z) : Z :=
  if m =? 2 then (if is_leap y then 29 else 28)
  else if (m =? 4) || (m =? 6) || (m =? 9) || (m =? 11) then 30
  else 31.

Definition days_before_year (y : Z) : Z :=
  let y1 := y - 1 in y1 * 365 + y1 / 4 - y1 / 100 + y1 / 400.

Definition days_before_month (y m : Z) : Z :=
  fold_right Z.add 0
    (map (days_in_month y) (map Z.of_nat (seq 1 (Z.to_nat (m - 1))))).

(** Proleptic Gregorian ordinal, 0001-01-01 being day 1. *)
Definition toordinal (d : date) : Z :=
  days_before_year (year d) + days_before_month (year d) (month d) + day d.

(** 0 = Monday ... 6 = Sunday. *)
Definition dayofweek (d : date) : Z := (toordinal d + 6) mod 7.

Definition Z_to_string (n : Z) : string := NilEmpty.string_of_int (Z.to_int n).

(** [date.strftime('%-m/%-d/%Y')]. *)
Definition strftime_mdY (d : date) : string :=
  (Z_to_string (month d) ++ "/" ++ Z_to_string (day d) ++ "/"
   ++ Z_to_string (year d))%string.

(** ** [datetime.strptime(h, '%Y-%m-%d').date()] *)

Definition digit (c : ascii) : option Z :=
  let n := Z.of_N (N_of_ascii c) in
  if (48 <=? n) && (n <=? 57) then Some (n - 48) else None.

(** [%Y]: exactly four digits. *)
Definition parse_Y (s : string) : option (Z * string) :=
  match s with
  | String a (String b (String c (String d r))) =>
      match digit a, digit b, digit c, digit d with
      | Some x, Some y, Some z, Some w =>
          Some (1000 * x + 100 * y + 10 * z + w, r)
      | _, _, _, _ => None
      end
  | _ => None
  end.

(** Two digits accepted by [ok], else one digit from 1 to 9. *)
Definition parse_1or2 (ok : Z -> Z -> bool) (s : string) : option (Z * string) :=
  match s with
  | String a r =>
      match digit a with
      | Some x =>
          let one := if 1 <=? x then Some (x, r) else None in
          match r with
          | String b r' =>
              match digit b with
              | Some y => if ok x y then Some (10 * x + y, r') else one
              | None => one
              end
          | EmptyString => one
          end
      | None => None
      end
  | EmptyString => None
  end.

(** [%m]: 1[0-2], 0[1-9] or [1-9]. *)
Definition parse_m : string -> option (Z * string) :=
  parse_1or2 (fun x y => (x =? 1) && (y <=? 2) || (x =? 0) && (1 <=? y)).

(** [%d]: 3[01], [12][0-9], 0[1-9], [1-9], or a space and [1-9]. *)
Definition parse_d (s : string) : option (Z * string) :=
  match
    parse_1or2 (fun x y => (x =? 3) && (y <=? 1) || (x =? 1) || (x =? 2)
                           || (x =? 0) && (1 <=? y)) s
  with
  | Some res => Some res
  | None =>
      match s with
      | String " " (String b r) =>
          match digit b with
          | Some y => if 1 <=? y then Some (y, r) else None
          | None => None
          end
      | _ => None
      end
  end.

Definition expect_dash (s : string) : option string :=
  match s with
  | String "-" r => Some r
  | _ => None
  end.

Definition strptime_Ymd (s : string) : result date :=
  match parse_Y s with
  | Some (y, s1) =>
      match expect_dash s1 with
      | Some s2 =>
          match parse_m s2 with
          | Some (m, s3) =>
              match expect_dash s3 with
              | Some s4 =>
                  match parse_d s4 with
                  | Some (d, EmptyString) =>
                      if (1 <=? y) && (d <=? days_in_month y m)
                      then Ok (mkdate y m d)
                      else Raise ValueError
                  | _ => Raise ValueError
                  end
              | None => Raise ValueError
              end
          | None => Raise ValueError
          end
      | None => Raise ValueError
      end
  | None => Raise ValueError
  end.

End Py.

Import Py.

(* ================================================================== *)
(** * Ingested files and the tabular operations applied to them *)
(* ================================================================== *)

Module Frame.

(** The metadata block of a file. *)
Record account_info : Type := mkaccount {
  name : string;
  address : string;
  account_number : string;
  meter_number : string
}.

(** One row of the tabular section. *)
Record interval : Type := mkinterval {
  Date : date;
  Start_Time : time;
  Duration : string;
  Consumption : float;
  Generation : float;
  Net : float
}.

(** A [*.csv] of the input folder as ingestion delivers it. *)
Record gbd_file : Type := mkfile {
  basename : string;
  parsed : result (list interval * account_info)
}.

(** A row of a processed frame, with the columns both processors add. *)
Record priced : Type := mkpriced {
  account : account_info;
  source : interval;
  Weekday : Z;
  IsWeekend : bool;
  IsHoliday : bool;
  IsWeekendHoliday : bool;
  Season : string;
  TimePeriod : string;
  Rate : float;
  Cost : float
}.

(** What the processors print. *)
Inductive line : Type :=
| NoCsvFiles
| Found (files : nat)
| Processing (file : string)
| Account (who : string)
| FileTotals (usage cost : float)
| FileError (e : exn)
| Saved
| Overall (records : nat) (usage cost : float)
| PeriodCost (period : string) (cost : float)
| PeriodNetCost (period : string) (net cost : float)
| NoData.

(** A run: the lines printed and the rows written to the output file. *)
Record run : Type := mkrun {
  printed : list line;
  saved : option (list priced)
}.

(** ** Sums of a column

    [Series.sum()] reads a missing value (NaN) as 0 and hands the column to
    numpy, whose sum of a float64 array is a pairwise summation: fewer than
    eight values are added from left to right; up to 128 values are added
    into eight running sums, the value at index [i] into the sum [i mod 8],
    the eight sums are then added two by two and the values after the last
    full block of eight are added to the result from left to right; a
    longer array is cut in two, the first part half as long rounded down to
    a multiple of eight, and the sums of the two parts are added. *)
Definition fillna (x : float) : float := if is_nan x then 0%float else x.

Definition add_in_order (acc : float) (l : list float) : float :=
  fold_left PrimFloat.add l acc.

Fixpoint add_block (r l : list float) : list float :=
  match r, l with
  | x :: r', y :: l' => (x + y)%float :: add_block r' l'
  | _, _ => r
  end.

Fixpoint unrolled (blocks : nat) (r l : list float)
  : list float * list float :=
  match blocks with
  | O => (r, l)
  | S b => unrolled b (add_block r (firstn 8 l)) (skipn 8 l)
  end.

Definition block_sum (l : list float) : float :=
  let (r, rest) :=
    unrolled (Nat.div (List.length l) 8 - 1) (firstn 8 l) (skipn 8 l) in
  match r with
  | [r0; r1; r2; r3; r4; r5; r6; r7] =>
      add_in_order (((r0 + r1) + (r2 + r3)) + ((r4 + r5) + (r6 + r7)))%float
                   rest
  | _ => add_in_order (-0)%float l
  end.

(** [depth] bounds the number of halvings; the length of the list is
    enough. *)
Fixpoint pairwise_sum (depth : nat) (l : list float) : float :=
  let n := List.length l in
  if Nat.ltb n 8 then add_in_order (-0)%float l
  else
    match depth with
    | S d =>
        if Nat.ltb 128 n then
          let n2 := (Nat.div n 2 - Nat.modulo (Nat.div n 2) 8)%nat in
          (pairwise_sum d (firstn n2 l) + pairwise_sum d (skipn n2 l))%float
        else block_sum l
    | O => block_sum l
    end.

Definition sum (l : list float) : float :=
  match l with
  | [] => 0%float
  | _ :: _ => pairwise_sum (List.length l) (map fillna l)
  end.

(** The sum of a group of a [groupby] is pandas' own loop over the rows: a
    compensated (Kahan) summation that skips the missing values, the
    compensation being reset when it is not a number. *)
Definition kahan_step (st : float * float) (val : float) : float * float :=
  let (sumx, compensation) := st in
  if is_nan val then st
  else
    let y := (val - compensation)%float in
    let t := (sumx + y)%float in
    let c := (t - sumx - y)%float in
    (t, if is_nan c then 0%float else c).

Definition group_sum (l : list float) : float :=
  fst (fold_left kahan_step l (0%float, 0%float)).

(** [pd.concat(all_data, ignore_index=True)]. *)
Definition concat (all_data : list (list priced)) : list priced :=
  List.concat all_data.

(** Group keys of a [groupby]: distinct and in increasing order. *)
Fixpoint insert_key (k : string) (l : list string) : list string :=
  match l with
  | [] => [k]
  | h :: t =>
      match String_as_OT.compare k h with
      | Lt => k :: l
      | Eq => l
      | Gt => h :: insert_key k t
      end
  end.

Definition group_keys (col : list string) : list string :=
  fold_right insert_key [] col.

Definition group (df : list priced) (k : string) : list priced :=
  filter (fun p => String.eqb (TimePeriod p) k) df.

(** [df.groupby('TimePeriod')['Cost'].sum()]. *)
Definition groupby_cost (df : list priced) : list (string * float) :=
  map (fun k => (k, group_sum (map Cost (group df k))))
      (group_keys (map TimePeriod df)).

(** The nearest integer, a tie going to the even one, of a binary64
    number: below 2^52 in magnitude, adding and taking away 2^52 rounds the
    magnitude to an integer; from 2^52 on, and for an infinity or NaN, the
    number is returned as it is.  The sign is kept, also on a zero. *)
Definition two52 : float := 4503599627370496%float.

Definition rint (x : float) : float :=
  if (abs x <? two52)%float then
    let r := (abs x + two52 - two52)%float in
    if get_sign x then (- r)%float else r
  else x.

(** [DataFrame.round(2)]: numpy scales by 100, rounds to the nearest
    integer and scales back, each step in binary64. *)
Definition round2 (x : float) : float := (rint (x * 100) / 100)%float.

(** [df.groupby('TimePeriod').agg({'Net': 'sum', 'Cost': 'sum'}).round(2)]. *)
Definition groupby_net_cost (df : list priced)
  : list (string * (float * float)) :=
  map (fun k =>
         let g := group df k in
         (k, (round2 (group_sum (map (fun p => Net (source p)) g)),
              round2 (group_sum (map Cost g)))))
      (group_keys (map TimePeriod df)).

(** The lines of the closing summary: the global totals and the per-tier
    breakdown. *)
Definition is_summary (l : line) : bool :=
  match l with
  | Overall _ _ _ | PeriodCost _ _ | PeriodNetCost _ _ _ => true
  | _ => false
  end.


End Frame.

Import Frame.

(* ================================================================== *)
(** * sdge_gbd_processor.py *)
(* ================================================================== *)

Module Hardcoded.

(** SDG&E TOU-DR rates, season -> tier -> price. *)
Definition RATES : list (string * list (string * float)) :=
  [ ("summer", [ ("on_peak", 0.59908%float);
                 ("off_peak", 0.52754%float);
                 ("super_off_peak", 0.45000%float) ]);
    ("winter", [ ("on_peak", 0.58155%float);
                 ("off_peak", 0.51899%float);
                 ("super_off_peak", 0.50084%float) ]) ].

Definition HOLIDAYS : list string :=
  [ "1/1/2025"; "2/17/2025"; "5/26/2025"; "7/4/2025";
    "9/1/2025"; "11/11/2025"; "11/27/2025"; "12/25/2025" ].

Definition get_season (d : date) : string :=
  if (6 <=? month d) && (month d <=? 10) then "summer" else "winter".

Definition is_holiday (d : date) : bool :=
  existsb (String.eqb (strftime_mdY d)) HOLIDAYS.

(** The [IsWeekend], [IsHoliday] and [IsWeekendHoliday] columns of a date. *)
Definition day_type (d : date) : bool :=
  isin (dayofweek d) [5; 6] || is_holiday d.

Definition get_time_period (d : date) (t : time) (is_weekend_holiday : bool)
  : string :=
  let hour := hour t in
  let month := month d in
  if is_weekend_holiday then
    if (16 <=? hour) && (hour <? 21) then "on_peak"
    else if (14 <=? hour) && (hour <? 16) || (21 <=? hour) && (hour <? 24)
    then "off_peak"
    else "super_off_peak"
  else
    if (16 <=? hour) && (hour <? 21) then "on_peak"
    else if (6 <=? hour) && (hour <? 16) || (21 <=? hour) && (hour <? 24)
    then
      if isin month [3; 4] && ((10 <=? hour) && (hour <? 14))
      then "super_off_peak"
      else "off_peak"
    else "super_off_peak".

(** [RATES[season][period]].  The functions below read the rate table as a
    module-level global; here it is the argument [rates], and the processor
    of the source is the instance at [RATES]. *)
Definition lookup_rate (rates : list (string * list (string * float)))
    (season period : string) : result float :=
  by_tier <- getitem rates season ;;
  getitem by_tier period.

(** The columns the [try] body adds to one row.  Only the rate lookup can
    raise, so filling the columns row by row or one whole column after the
    other gives the same frame and the same exception.  The cost is the
    binary64 product [df['Net'].astype(float) * df['Rate']]. *)
Definition price (rates : list (string * list (string * float)))
    (acct : account_info) (r : interval) : result priced :=
  let weekday := dayofweek (Date r) in
  let is_weekend := isin weekday [5; 6] in
  let holiday := is_holiday (Date r) in
  let is_weekend_holiday := day_type (Date r) in
  let season := get_season (Date r) in
  let period := get_time_period (Date r) (Start_Time r) is_weekend_holiday in
  rate <- lookup_rate rates season period ;;
  Ok (mkpriced acct r weekday is_weekend holiday is_weekend_holiday
               season period rate (Net r * rate)%float).

(** The [try] body of [process_gbd_files] for one file, up to the frame
    appended to [all_data].  On a frame without rows [apply] returns an
    [IsHoliday] column that is not boolean, and [df['IsWeekend'] |
    df['IsHoliday']] raises TypeError, before any rate is looked up. *)
Definition process_file_with (rates : list (string * list (string * float)))
    (csv_file : gbd_file) : result (list priced) :=
  p <- parsed csv_file ;;
  match fst p with
  | [] => Raise TypeError
  | _ :: _ => mapM (price rates (snd p)) (fst p)
  end.

(** The loop over [csv_files]; [all_data] and the printed lines are the
    state it updates. *)
Fixpoint loop_with (rates : list (string * list (string * float)))
    (csv_files : list gbd_file)
    (all_data : list (list priced)) (out : list line)
  : list (list priced) * list line :=
  match csv_files with
  | [] => (all_data, out)
  | csv_file :: rest =>
      let out := out ++ [Processing (basename csv_file)] in
      match process_file_with rates csv_file with
      | Ok df =>
          loop_with rates rest (all_data ++ [df])
            (out ++ [FileTotals (sum (map (fun p => Net (source p)) df))
                                (sum (map Cost df))])
      | Raise e =>
          loop_with rates rest all_data (out ++ [FileError e])
      end
  end.

(** [process_gbd_files].  The frames carry every output column and the
    output file is taken to be writable, so that the steps after the loop
    (column selection, [to_csv], the summary) go through. *)
Definition process_gbd_files_with
    (rates : list (string * list (string * float)))
    (csv_files : list gbd_file) : run :=
  match csv_files with
  | [] => mkrun [NoCsvFiles] None
  | _ :: _ =>
      let (all_data, out) :=
        loop_with rates csv_files [] [Found (List.length csv_files)] in
      match all_data with
      | _ :: _ =>
          let combined_df := concat all_data in
          mkrun
            (out ++ [Saved;
                     Overall (List.length combined_df)
                             (sum (map (fun p => Net (source p)) combined_df))
                             (sum (map Cost combined_df))]
                 ++ map (fun pc => PeriodCost (fst pc) (snd pc))
                        (groupby_cost combined_df))
            (Some combined_df)
      | [] => mkrun (out ++ [NoData]) None
      end
  end.

Definition process_file : gbd_file -> result (list priced) :=
  process_file_with RATES.

(** What one turn of the loop appends to [all_data] and prints. *)
Definition file_data (rates : list (string * list (string * float)))
    (csv_file : gbd_file) : list (list priced) :=
  match process_file_with rates csv_file with
  | Ok df => [df]
  | Raise _ => []
  end.

Definition file_lines (rates : list (string * list (string * float)))
    (csv_file : gbd_file) : list line :=
  Processing (basename csv_file) ::
  match process_file_with rates csv_file with
  | Ok df => [FileTotals (sum (map (fun p => Net (source p)) df))
                         (sum (map Cost df))]
  | Raise e => [FileError e]
  end.

Definition process_gbd_files : list gbd_file -> run :=
  process_gbd_files_with RATES.

End Hardcoded.

(* ================================================================== *)
(** * sdge_processor_configurable.py *)
(* ================================================================== *)

Module Configurable.

(** The [special_periods] object; either key may be missing. *)
Record special : Type := mkspecial {
  months : option (list Z);
  super_off_peak_extra : option (list (Z * Z))
}.

(** A value of a [time_periods] schedule: a list of [[start, end]] pairs
    under a tier name, or the [special_periods] object. *)
Inductive period_entry : Type :=
| Hours (hours_list : list (Z * Z))
| Special (sp : special).

(** A value of a season's rate object: its month list or a tier's price. *)
Inductive rate_entry : Type :=
| Months (ms : list Z)
| Price (p : float).

(** The document read by [json.load]; a top-level key may be missing. *)
Record config : Type := mkconfig {
  holidays : option (list string);
  rates : option (list (string * list (string * rate_entry)));
  time_periods : option (list (string * list (string * period_entry)))
}.

Definition key {A : Type} (k : string) (o : option A) : result A :=
  match o with
  | Some a => Ok a
  | None => Raise (KeyError k)
  end.

(** The processor object: [self.config] and [self.holidays]. *)
Record SDGEProcessor : Type := mkprocessor {
  self_config : config;
  self_holidays : list date
}.

(** [SDGEProcessor.__init__], from the parsed document on. *)
Definition init (cfg : config) : result SDGEProcessor :=
  hs <- key "holidays" (holidays cfg) ;;
  ds <- mapM strptime_Ymd hs ;;
  Ok (mkprocessor cfg ds).

Definition get_season (self : SDGEProcessor) (d : date) : result string :=
  rs <- key "rates" (rates (self_config self)) ;;
  summer <- getitem rs "summer" ;;
  ms <- getitem summer "months" ;;
  match ms with
  | Months l => if isin (month d) l then Ok "summer" else Ok "winter"
  | Price _ => Raise TypeError
  end.

Definition is_holiday (self : SDGEProcessor) (d : date) : bool :=
  existsb (date_eqb d) (self_holidays self).

(** The loop over [periods.items()]: the first tier, in document order,
    one of whose ranges holds [hour]; [None] when the loop falls through. *)
Fixpoint scan_periods (items : list (string * period_entry)) (hour : Z)
  : result (option string) :=
  match items with
  | [] => Ok None
  | (period_name, v) :: rest =>
      if String.eqb period_name "special_periods" then scan_periods rest hour
      else
        match v with
        | Hours hours_list =>
            if existsb (in_range hour) hours_list
            then Ok (Some period_name)
            else scan_periods rest hour
        | Special sp =>
            (* iterating an object yields its keys, which do not unpack
               into a pair; an empty object yields nothing *)
            match months sp, super_off_peak_extra sp with
            | None, None => scan_periods rest hour
            | _, _ => Raise ValueError
            end
        end
  end.

Definition get_time_period (self : SDGEProcessor)
    (hour : Z) (is_weekend_holiday : bool) (month : Z) : result string :=
  let schedule := if is_weekend_holiday then "weekend_holiday" else "weekday" in
  tp <- key "time_periods" (time_periods (self_config self)) ;;
  periods <- getitem tp schedule ;;
  found <- scan_periods periods hour ;;
  match found with
  | Some period_name => Ok (str_replace period_name "_" "_")
  | None =>
      if negb is_weekend_holiday && contains periods "special_periods" then
        sp <- getitem periods "special_periods" ;;
        match sp with
        | Hours _ => Raise TypeError
        | Special special =>
            ms <- key "months" (months special) ;;
            if isin month ms then
              if existsb (in_range hour)
                   (match super_off_peak_extra special with
                    | Some l => l
                    | None => []
                    end)
              then Ok "super_off_peak"
              else Ok "off_peak"
            else Ok "off_peak"
        end
      else Ok "off_peak"
  end.

(** The columns [process_file] adds, one whole column after the other:
    an exception in a column is raised before the next one is computed. *)
Definition season_column (self : SDGEProcessor) (rows : list interval)
  : result (list (interval * string)) :=
  mapM (fun r => s <- get_season self (Date r) ;; Ok (r, s)) rows.

Definition day_type (self : SDGEProcessor) (d : date) : bool :=
  isin (dayofweek d) [5; 6] || is_holiday self d.

Definition period_column (self : SDGEProcessor)
    (rows : list (interval * string))
  : result (list (interval * string * string)) :=
  mapM (fun rs =>
          t <- get_time_period self (hour (Start_Time (fst rs)))
                 (day_type self (Date (fst rs))) (month (Date (fst rs))) ;;
          Ok (rs, t)) rows.

(** [self.config['rates'][season][period]]. *)
Definition lookup_rate (self : SDGEProcessor) (season period : string)
  : result rate_entry :=
  rs <- key "rates" (rates (self_config self)) ;;
  by_tier <- getitem rs season ;;
  getitem by_tier period.

Definition rate_column (self : SDGEProcessor)
    (rows : list (interval * string * string))
  : result (list (interval * string * string * rate_entry)) :=
  mapM (fun rst =>
          rate <- lookup_rate self (snd (fst rst)) (snd rst) ;;
          Ok (rst, rate)) rows.

(** [df['Net'] * df['Rate']], the binary64 product of each row: a month
    list is no factor. *)
Definition cost_column (self : SDGEProcessor) (acct : account_info)
    (rows : list (interval * string * string * rate_entry))
  : result (list priced) :=
  mapM (fun rstr =>
          let r := fst (fst (fst rstr)) in
          match snd rstr with
          | Price rate =>
              Ok (mkpriced acct r
                    (dayofweek (Date r))
                    (isin (dayofweek (Date r)) [5; 6])
                    (is_holiday self (Date r))
                    (day_type self (Date r))
                    (snd (fst (fst rstr))) (snd (fst rstr))
                    rate (Net r * rate)%float)
          | Months _ => Raise TypeError
          end) rows.

(** On a frame without rows [df['IsWeekend'] | df['IsHoliday']] raises
    TypeError, as in the other processor, before the season column is
    computed. *)
Definition process_file (self : SDGEProcessor) (filepath : gbd_file)
  : result (list priced * account_info) :=
  p <- parsed filepath ;;
  match fst p with
  | [] => Raise TypeError
  | _ :: _ =>
      c1 <- season_column self (fst p) ;;
      c2 <- period_column self c1 ;;
      c3 <- rate_column self c2 ;;
      df <- cost_column self (snd p) c3 ;;
      Ok (df, snd p)
  end.

Fixpoint loop (self : SDGEProcessor) (csv_files : list gbd_file)
    (all_data : list (list priced)) (out : list line)
  : list (list priced) * list line :=
  match csv_files with
  | [] => (all_data, out)
  | csv_file :: rest =>
      let out := out ++ [Processing (basename csv_file)] in
      match process_file self csv_file with
      | Ok (df, account_info) =>
          loop self rest (all_data ++ [df])
            (out ++ [Account (name account_info);
                     FileTotals (sum (map (fun p => Net (source p)) df))
                                (sum (map Cost df))])
      | Raise e =>
          loop self rest all_data (out ++ [FileError e])
      end
  end.

(** [process_folder], with the output columns present and the output file
    writable as above. *)
Definition process_folder (self : SDGEProcessor) (csv_files : list gbd_file)
  : run :=
  match csv_files with
  | [] => mkrun [NoCsvFiles] None
  | _ :: _ =>
      let (all_data, out) :=
        loop self csv_files [] [Found (List.length csv_files)] in
      match all_data with
      | _ :: _ =>
          let combined := concat all_data in
          mkrun
            (out ++ [Saved;
                     Overall (List.length combined)
                             (sum (map (fun p => Net (source p)) combined))
                             (sum (map Cost combined))]
                 ++ map (fun s => PeriodNetCost (fst s) (fst (snd s))
                                                (snd (snd s)))
                        (groupby_net_cost combined))
            (Some combined)
      | [] => mkrun out None
      end
  end.

(** What one turn of the loop appends to [all_data] and prints. *)
Definition file_data (self : SDGEProcessor) (csv_file : gbd_file)
  : list (list priced) :=
  match process_file self csv_file with
  | Ok (df, _) => [df]
  | Raise _ => []
  end.

Definition file_lines (self : SDGEProcessor) (csv_file : gbd_file)
  : list line :=
  Processing (basename csv_file) ::
  match process_file self csv_file with
  | Ok (df, account_info) =>
      [Account (name account_info);
       FileTotals (sum (map (fun p => Net (source p)) df))
                  (sum (map Cost df))]
  | Raise e => [FileError e]
  end.

(** The hour lies in no range of the tier entries of [periods]. *)
Definition outside_base (periods : list (string * period_entry)) (hour : Z)
  : Prop :=
  Forall (fun kv =>
            fst kv = "special_periods" \/
            exists l, snd kv = Hours l /\ existsb (in_range hour) l = false)
         periods.

(** The script: build the processor, then process the folder. *)
Definition main (cfg : config) (csv_files : list gbd_file) : result run :=
  processor <- init cfg ;;
  Ok (process_folder processor csv_files).

End Configurable.

(* ================================================================== *)
(** * The built-in schedule as a schedule description *)
(* ================================================================== *)

Module Schedule.

Import Configurable.

(** Modelled from the spec: the repository's schedule document
    ([sdge_rates.json]) is not part of the sources.  This is the built-in
    schedule written in the layout the configurable processor reads:
    the holidays as year-month-day, each season with its months and its
    price per tier, and per day-type the tier ranges in the order
    on_peak, off_peak, super_off_peak, the weekday one with the override
    block (months 3 and 4, sub-range 10 to 14). *)
Definition builtin_config : config :=
  mkconfig
    (Some [ "2025-01-01"; "2025-02-17"; "2025-05-26"; "2025-07-04";
            "2025-09-01"; "2025-11-11"; "2025-11-27"; "2025-12-25" ])
    (Some [ ("summer", [ ("months", Months [6; 7; 8; 9; 10]);
                         ("on_peak", Price 0.59908%float);
                         ("off_peak", Price 0.52754%float);
                         ("super_off_peak", Price 0.45000%float) ]);
            ("winter", [ ("months", Months [11; 12; 1; 2; 3; 4; 5]);
                         ("on_peak", Price 0.58155%float);
                         ("off_peak", Price 0.51899%float);
                         ("super_off_peak", Price 0.50084%float) ]) ])
    (Some [ ("weekday",
             [ ("on_peak", Hours [(16, 21)]);
               ("off_peak", Hours [(6, 16); (21, 24)]);
               ("super_off_peak", Hours [(0, 6)]);
               ("special_periods",
                Special (mkspecial (Some [3; 4]) (Some [(10, 14)]))) ]);
            ("weekend_holiday",
             [ ("on_peak", Hours [(16, 21)]);
               ("off_peak", Hours [(14, 16); (21, 24)]);
               ("super_off_peak", Hours [(0, 14)]) ]) ]).

Definition builtin_processor : SDGEProcessor :=
  mkprocessor builtin_config
    [ mkdate 2025 1 1; mkdate 2025 2 17; mkdate 2025 5 26; mkdate 2025 7 4;
      mkdate 2025 9 1; mkdate 2025 11 11; mkdate 2025 11 27;
      mkdate 2025 12 25 ].

(** The same schedule with the override hours left out of the weekday
    off_peak ranges. *)
Definition holed_config : config :=
  mkconfig (holidays builtin_config) (rates builtin_config)
    (Some [ ("weekday",
             [ ("on_peak", Hours [(16, 21)]);
               ("off_peak", Hours [(6, 10); (14, 16); (21, 24)]);
               ("super_off_peak", Hours [(0, 6)]);
               ("special_periods",
                Special (mkspecial (Some [3; 4]) (Some [(10, 14)]))) ]);
            ("weekend_holiday",
             [ ("on_peak", Hours [(16, 21)]);
               ("off_peak", Hours [(14, 16); (21, 24)]);
               ("super_off_peak", Hours [(0, 14)]) ]) ]).

Definition holed_processor : SDGEProcessor :=
  mkprocessor holed_config (self_holidays builtin_processor).

(** ** The invariants of a schedule description *)

Definition season_months (cfg : config) (season : string) : list Z :=
  match rates cfg with
  | Some rs =>
      match dict_get rs season with
      | Some by_tier =>
          match dict_get by_tier "months" with
          | Some (Months l) => l
          | _ => []
          end
      | None => []
      end
  | None => []
  end.

(** Modelled from the spec: season coverage, every month of the year is
    assigned to exactly one of the two seasons. *)
Definition season_coverage (cfg : config) : bool :=
  forallb (fun m => xorb (isin m (season_months cfg "summer"))
                         (isin m (season_months cfg "winter")))
          [1; 2; 3; 4; 5; 6; 7; 8; 9; 10; 11; 12].

Definition entry_ranges (e : period_entry) : list (Z * Z) :=
  match e with
  | Hours l => l
  | Special sp =>
      match super_off_peak_extra sp with
      | Some l => l
      | None => []
      end
  end.

Definition all_ranges (cfg : config) : list (Z * Z) :=
  match time_periods cfg with
  | Some tp =>
      flat_map (fun day => flat_map (fun kv => entry_ranges (snd kv)) (snd day))
               tp
  | None => []
  end.

(** Modelled from the spec: range well-formedness, every range is a
    half-open interval of hours [start, end) of the 24-hour clock. *)
Definition ranges_well_formed (cfg : config) : bool :=
  forallb (fun r => (0 <=? fst r) && (fst r <? snd r) && (snd r <=? 24))
          (all_ranges cfg).

Definition valid_schedule (cfg : config) : bool :=
  season_coverage cfg && ranges_well_formed cfg.

(** A schedule description with no season months, an inverted range and
    an hour past the end of the day. *)
Definition broken_config : config :=
  mkconfig
    (Some [ "2025-07-04" ])
    (Some [ ("summer", [ ("months", Months []);
                         ("off_peak", Price 0.5%float) ]);
            ("winter", [ ("months", Months []);
                         ("off_peak", Price 0.5%float) ]) ])
    (Some [ ("weekday", [ ("on_peak", Hours [(21, 16)]);
                          ("off_peak", Hours [(30, 40)]) ]);
            ("weekend_holiday", [ ("on_peak", Hours [(21, 16)]) ]) ]).

Definition sample_account : account_info :=
  mkaccount "A. Customer" "1 Main St" "0001" "M-1".

Definition sample_file (name : string) (rows : list interval) : gbd_file :=
  mkfile name (Ok (rows, sample_account)).

Definition sample_row (d : date) (h : Z) (consumption generation : float)
  : interval :=
  mkinterval d (mktime h 0) "15" consumption generation
             (consumption - generation)%float.

(** The built-in rate table without its winter prices. *)
Definition summer_only_rates : list (string * list (string * float)) :=
  [ ("summer", [ ("on_peak", 0.59908%float);
                 ("off_peak", 0.52754%float);
                 ("super_off_peak", 0.45000%float) ]) ].

(** The built-in schedule without the winter super_off_peak price. *)
Definition partial_config : config :=
  mkconfig (holidays builtin_config)
    (Some [ ("summer", [ ("months", Months [6; 7; 8; 9; 10]);
                         ("on_peak", Price 0.59908%float);
                         ("off_peak", Price 0.52754%float);
                         ("super_off_peak", Price 0.45000%float) ]);
            ("winter", [ ("months", Months [11; 12; 1; 2; 3; 4; 5]);
                         ("on_peak", Price 0.58155%float);
                         ("off_peak", Price 0.51899%float) ]) ])
    (time_periods builtin_config).

Definition partial_processor : SDGEProcessor :=
  mkprocessor partial_config (self_holidays builtin_processor).

(** Saturday 2025-01-04, 01:00, 1 kWh consumed. *)
Definition winter_file : gbd_file :=
  sample_file "winter.csv" [sample_row (mkdate 2025 1 4) 1 1 0].

(** Monday 2025-08-11, 17:00, 2 kWh consumed. *)
Definition peak_file : gbd_file :=
  sample_file "peak.csv" [sample_row (mkdate 2025 8 11) 17 2 0].

(** Tuesday 2025-07-15, 14:00, 1.5 kWh generated and none consumed. *)
Definition credit_file : gbd_file :=
  sample_file "credit.csv" [sample_row (mkdate 2025 7 15) 14 0 1.5].

(** The same interval with 1.1 kWh consumed, and with the smallest
    positive binary64 number generated. *)
Definition rounded_file : gbd_file :=
  sample_file "rounded.csv" [sample_row (mkdate 2025 7 15) 14 1.1 0].

Definition tiny_credit_file : gbd_file :=
  sample_file "tiny.csv" [sample_row (mkdate 2025 7 15) 3 0 5e-324].

(** The built-in schedule with a summer off_peak price of zero. *)
Definition free_config : config :=
  mkconfig (holidays builtin_config)
    (Some [ ("summer", [ ("months", Months [6; 7; 8; 9; 10]);
                         ("on_peak", Price 0.59908%float);
                         ("off_peak", Price 0%float);
                         ("super_off_peak", Price 0.45000%float) ]);
            ("winter", [ ("months", Months [11; 12; 1; 2; 3; 4; 5]);
                         ("on_peak", Price 0.58155%float);
                         ("off_peak", Price 0.51899%float);
                         ("super_off_peak", Price 0.50084%float) ]) ])
    (time_periods builtin_config).

Definition free_processor : SDGEProcessor :=
  mkprocessor free_config (self_holidays builtin_processor).




(** A file with its header line and no interval. *)
Definition empty_file : gbd_file := sample_file "empty.csv" [].

(** Modelled from the spec: [cost = net x rate] exactly, that is, the cost
    is the product of net and rate as real numbers.  A finite binary64
    number is a signed mantissa times a power of two; the product of two
    of them is compared with a third at the smaller of the two exponents. *)
Definition is_exact_product (net rate cost : float) : bool :=
  match Prim2SF net, Prim2SF rate, Prim2SF cost with
  | S754_finite sn mn en, S754_finite sr mr er, S754_finite sc mc ec =>
      let e := Z.min (en + er) ec in
      Bool.eqb (xorb sn sr) sc &&
      (Zpos (mn * mr) * 2 ^ (en + er - e) =? Zpos mc * 2 ^ (ec - e))
  | S754_zero _, S754_finite _ _ _, S754_zero _
  | S754_finite _ _ _, S754_zero _, S754_zero _
  | S754_zero _, S754_zero _, S754_zero _ => true
  | _, _, _ => false
  end.

End Schedule.

Import Schedule.

(* ================================================================== *)
(** * Reading a file: parse_gbd_file and the head of process_file *)
(* ================================================================== *)

Module Ingest.

(** Exceptions of the reading step: an index out of range, or whatever
    the tabular library raised. *)
Inductive ingest_exn : Type :=
| IndexError
| Library (e : exn).

Inductive tried (A : Type) : Type :=
| Got (a : A)
| Failed (e : ingest_exn).

Arguments Got {A} a.
Arguments Failed {A} e.

Definition and_then {A B : Type} (t : tried A) (k : A -> tried B) : tried B :=
  match t with
  | Got a => k a
  | Failed e => Failed e
  end.

Definition of_result {A : Type} (r : result A) : tried A :=
  match r with
  | Ok a => Got a
  | Raise e => Failed (Library e)
  end.

(** [sub in s]. *)
Fixpoint substring_in (sub s : string) : bool :=
  String.prefix sub s ||
  match s with
  | EmptyString => false
  | String _ s' => substring_in sub s'
  end.

Definition header_marker : string := "Meter Number,Date,Start Time".

(** The loop over [enumerate(lines)], counting from [i]: the index of the
    first line holding the marker. *)
Fixpoint first_header (lines : list string) (i : nat) : option nat :=
  match lines with
  | [] => None
  | line :: rest =>
      if substring_in header_marker line then Some i
      else first_header rest (S i)
  end.

(** [header_row], which starts at 0 and is set when the loop breaks. *)
Definition header_row (lines : list string) : nat :=
  match first_header lines 0 with
  | Some i => i
  | None => 0
  end.

(** [l[i]]. *)
Definition item {A : Type} (l : list A) (i : nat) : tried A :=
  match nth_error l i with
  | Some a => Got a
  | None => Failed IndexError
  end.

(** [s.split(sep)] for a one-character separator. *)
Fixpoint split (sep : ascii) (s : string) : list string :=
  match s with
  | EmptyString => [EmptyString]
  | String c s' =>
      if Ascii.eqb c sep then EmptyString :: split sep s'
      else
        match split sep s' with
        | h :: t => String c h :: t
        | [] => [String c EmptyString]
        end
  end.

(** Characters [str.strip()] removes, among those below U+0100: tab to
    carriage return, the four separators U+001C to U+001F, the space,
    U+0085 and U+00A0. *)
Definition isspace (c : ascii) : bool :=
  let n := nat_of_ascii c in
  ((9 <=? n) && (n <=? 13) || (28 <=? n) && (n <=? 32)
   || (n =? 133) || (n =? 160))%nat.

Fixpoint lstrip_with (p : ascii -> bool) (s : string) : string :=
  match s with
  | EmptyString => EmptyString
  | String c s' => if p c then lstrip_with p s' else s
  end.

Fixpoint rstrip_with (p : ascii -> bool) (s : string) : string :=
  match s with
  | EmptyString => EmptyString
  | String c s' =>
      match rstrip_with p s' with
      | EmptyString => if p c then EmptyString else String c EmptyString
      | r => String c r
      end
  end.

Definition strip_with (p : ascii -> bool) (s : string) : string :=
  rstrip_with p (lstrip_with p s).

(** [s.strip()]. *)
Definition strip (s : string) : string := strip_with isspace s.

Fixpoint char_in (chars : string) (c : ascii) : bool :=
  match chars with
  | EmptyString => false
  | String x chars' => Ascii.eqb c x || char_in chars' c
  end.

(** [s.strip(chars)]. *)
Definition strip_chars (s chars : string) : string :=
  strip_with (char_in chars) s.

(** The carriage return. *)
Definition CR : string := String (ascii_of_nat 13) EmptyString.

(** Line [i] exists and holds a comma. *)
Definition labelled (lines : list string) (i : nat) : bool :=
  match nth_error lines i with
  | Some line => char_in line ","
  | None => false
  end.

(** [lines[i].split(',')[1].strip()], the entry of the hardcoded
    processor's [account_info]. *)
Definition field (lines : list string) (i : nat) : tried string :=
  and_then (item lines i) (fun line =>
  and_then (item (split "," line) 1) (fun f =>
  Got (strip f))).

(** [lines[i].split(',')[1].strip().strip('\r')], the entry of the
    configurable processor's. *)
Definition field_cr (lines : list string) (i : nat) : tried string :=
  and_then (item lines i) (fun line =>
  and_then (item (split "," line) 1) (fun f =>
  Got (strip_chars (strip f) CR))).

(** The [account_info] dict of [parse_gbd_file]; its entries are evaluated
    in the order written. *)
Definition account_info_of (lines : list string) : tried account_info :=
  and_then (field lines 0) (fun name =>
  and_then (field lines 1) (fun address =>
  and_then (field lines 2) (fun account_number =>
  and_then (field lines 6) (fun meter_number =>
  Got (mkaccount name address account_number meter_number))))).

(** The [account_info] dict of [SDGEProcessor.process_file]. *)
Definition account_info_cr (lines : list string) : tried account_info :=
  and_then (field_cr lines 0) (fun name =>
  and_then (field_cr lines 1) (fun address =>
  and_then (field_cr lines 2) (fun account_number =>
  and_then (field_cr lines 6) (fun meter_number =>
  Got (mkaccount name address account_number meter_number))))).

Section Reading.

(** [pd.read_csv(filepath, skiprows=...)] on the file whose lines are
    read: the frame, or the exception raised. *)
Variable raw : Type.
Variable read_csv : nat -> result raw.

(** [parse_gbd_file]: the lines, the header row, the frame, then the
    account information. *)
Definition parse_gbd_file (lines : list string) : tried (raw * account_info) :=
  and_then (of_result (read_csv (header_row lines))) (fun df =>
  and_then (account_info_of lines) (fun account_info =>
  Got (df, account_info))).

(** The same steps at the head of [SDGEProcessor.process_file]. *)
Definition read_file (lines : list string) : tried (raw * account_info) :=
  and_then (of_result (read_csv (header_row lines))) (fun df =>
  and_then (account_info_cr lines) (fun account_info =>
  Got (df, account_info))).

End Reading.

End Ingest.

(* ================================================================== *)
(** * Reading the printed lines *)
(* ================================================================== *)

Module Report.

(** The files announced by the loop, in the order printed. *)
Fixpoint announced (out : list line) : list string :=
  match out with
  | [] => []
  | Processing file :: rest => file :: announced rest
  | _ :: rest => announced rest
  end.

(** The exceptions reported, in the order printed. *)
Fixpoint reported (out : list line) : list exn :=
  match out with
  | [] => []
  | FileError e :: rest => e :: reported rest
  | _ :: rest => reported rest
  end.

(** The totals and the tiers of the closing summary. *)
Fixpoint records (out : list line) : list nat :=
  match out with
  | [] => []
  | Overall n _ _ :: rest => n :: records rest
  | _ :: rest => records rest
  end.






(** The holidays of the hardcoded processor as dates. *)
Definition HOLIDAY_DATES : list date :=
  [ mkdate 2025 1 1; mkdate 2025 2 17; mkdate 2025 5 26; mkdate 2025 7 4;
    mkdate 2025 9 1; mkdate 2025 11 11; mkdate 2025 11 27;
    mkdate 2025 12 25 ].

(** The season, the tier and a price resolve for an interval. *)
Definition classifies (self : Configurable.SDGEProcessor) (r : interval)
  : Prop :=
  exists s t rate,
    Configurable.get_season self (Date r) = Ok s /\
    Configurable.get_time_period self (hour (Start_Time r))
      (Configurable.day_type self (Date r)) (month (Date r)) = Ok t /\
    Configurable.lookup_rate self s t = Ok (Configurable.Price rate).

(** A description with holidays spelled without padding, and one with no
    season at all. *)
Definition unpadded_config : Configurable.config :=
  Configurable.mkconfig (Some ["2025-7-4"; "2025-12-25"]) None None.

Definition seasonless_config : Configurable.config :=
  Configurable.mkconfig (Some []) (Some []) (Configurable.time_periods builtin_config).

(** Two schedules whose weekday tiers overlap, in either order, and one
    whose override block has no months. *)
Definition peak_first : Configurable.SDGEProcessor :=
  Configurable.mkprocessor
    (Configurable.mkconfig None None
       (Some [("weekday",
               [("on_peak", Configurable.Hours [(16, 21)]);
                ("off_peak", Configurable.Hours [(0, 24)])])])) [].

Definition peak_second : Configurable.SDGEProcessor :=
  Configurable.mkprocessor
    (Configurable.mkconfig None None
       (Some [("weekday",
               [("off_peak", Configurable.Hours [(0, 24)]);
                ("on_peak", Configurable.Hours [(16, 21)])])])) [].

Definition no_months : Configurable.SDGEProcessor :=
  Configurable.mkprocessor
    (Configurable.mkconfig None None
       (Some [("weekday",
               [("on_peak", Configurable.Hours [(16, 21)]);
                ("special_periods",
                 Configurable.Special
                   (Configurable.mkspecial None (Some [(10, 14)])))])])) [].

End Report.

Import Report.

(* ================================================================== *)
(** * The time-period resolvers *)
(* ================================================================== *)

Section Resolver.

Import Configurable.

Lemma replace_from_same (c : ascii) (s : string) :
  replace_from (String c "") (String c "") 0 s = s.
Proof.
  induction s as [|a s IH]; simpl; [reflexivity|].
  destruct (Ascii.ascii_dec c a) as [->|_]; simpl; rewrite IH;
    [now destruct (String.prefix "" s) | reflexivity].
Qed.

Lemma isin_In (x : Z) (l : list Z) : isin x l = true <-> In x l.
Proof.
  unfold isin. rewrite existsb_exists. split.
  - intros [y [Hy E]]. apply Z.eqb_eq in E. now subst.
  - intros H. exists x. split; [assumption | apply Z.eqb_refl].
Qed.

(** A match of the base loop is returned at once: the override block is
    not read. *)
Lemma base_match_returns (self : SDGEProcessor) tp periods (hour : Z)
    (wh : bool) (month : Z) name :
  time_periods (self_config self) = Some tp ->
  dict_get tp (if wh then "weekend_holiday" else "weekday") = Some periods ->
  scan_periods periods hour = Ok (Some name) ->
  get_time_period self hour wh month = Ok name.
Proof.
  intros Htp Hp Hs. unfold get_time_period, getitem.
  rewrite Htp. simpl. rewrite Hp. simpl. rewrite Hs. simpl.
  now rewrite replace_from_same.
Qed.

Lemma scan_outside periods hour :
  outside_base periods hour -> scan_periods periods hour = Ok None.
Proof.
  induction 1 as [|[k v] rest Hkv _ IH]; simpl; [reflexivity|].
  destruct Hkv as [Hk | [l [Hv Hl]]]; simpl in *.
  - subst k. simpl. exact IH.
  - subst v. rewrite Hl. destruct (String.eqb k "special_periods"); exact IH.
Qed.

Lemma init_builtin : init builtin_config = Ok builtin_processor.
Proof. reflexivity. Qed.

Lemma init_holed : init holed_config = Ok holed_processor.
Proof. reflexivity. Qed.

Lemma init_partial : init partial_config = Ok partial_processor.
Proof. reflexivity. Qed.

(** On the hours of the clock the two resolvers differ exactly on the
    weekday override hours: the configurable one, given the built-in
    schedule, answers like the hardcoded one without its special case. *)
Lemma builtin_resolution (d : date) (t : time) (wh : bool) :
  0 <= hour t < 24 ->
  get_time_period builtin_processor (hour t) wh (month d) =
  Ok (if negb wh && isin (month d) [3; 4]
         && ((10 <=? hour t) && (hour t <? 14))
      then "off_peak"
      else Hardcoded.get_time_period d t wh).
Proof.
  intros Hh. destruct d as [y m dd], t as [h mi]. cbn [hour month] in *.
  assert (Hcases : h = 0 \/ h = 1 \/ h = 2 \/ h = 3 \/ h = 4 \/ h = 5 \/
                   h = 6 \/ h = 7 \/ h = 8 \/ h = 9 \/ h = 10 \/ h = 11 \/
                   h = 12 \/ h = 13 \/ h = 14 \/ h = 15 \/ h = 16 \/ h = 17 \/
                   h = 18 \/ h = 19 \/ h = 20 \/ h = 21 \/ h = 22 \/ h = 23)
    by lia.
  clear Hh.
  destruct wh;
    repeat (destruct Hcases as [-> | Hcases];
            [cbv - [isin]; try destruct (isin m [3; 4]); reflexivity |]);
    subst h; cbv - [isin]; try destruct (isin m [3; 4]); reflexivity.
Qed.

(** With the override hours left out of the weekday off_peak ranges the
    override block is reached, and the configurable resolver answers like
    the hardcoded one on every hour of the clock. *)
Lemma holed_resolution (d : date) (t : time) (wh : bool) :
  0 <= hour t < 24 ->
  get_time_period holed_processor (hour t) wh (month d) =
  Ok (Hardcoded.get_time_period d t wh).
Proof.
  intros Hh. destruct d as [y m dd], t as [h mi]. cbn [hour month] in *.
  assert (Hcases : h = 0 \/ h = 1 \/ h = 2 \/ h = 3 \/ h = 4 \/ h = 5 \/
                   h = 6 \/ h = 7 \/ h = 8 \/ h = 9 \/ h = 10 \/ h = 11 \/
                   h = 12 \/ h = 13 \/ h = 14 \/ h = 15 \/ h = 16 \/ h = 17 \/
                   h = 18 \/ h = 19 \/ h = 20 \/ h = 21 \/ h = 22 \/ h = 23)
    by lia.
  clear Hh.
  destruct wh;
    repeat (destruct Hcases as [-> | Hcases];
            [cbv - [isin]; try destruct (isin m [3; 4]); reflexivity |]);
    subst h; cbv - [isin]; try destruct (isin m [3; 4]); reflexivity.
Qed.

(** The scenarios of the built-in schedule. *)
Example weekday_summer_afternoon :
  Hardcoded.price Hardcoded.RATES sample_account
    (sample_row (mkdate 2025 7 15) 14 1 0) =
  Ok (mkpriced sample_account (sample_row (mkdate 2025 7 15) 14 1 0)
        1 false false false "summer" "off_peak" 0.52754%float
        ((1 - 0) * 0.52754)%float).
Proof. reflexivity. Qed.

Example weekday_march_override :
  Hardcoded.price Hardcoded.RATES sample_account
    (sample_row (mkdate 2025 3 10) 11 1 0) =
  Ok (mkpriced sample_account (sample_row (mkdate 2025 3 10) 11 1 0)
        0 false false false "winter" "super_off_peak" 0.50084%float
        ((1 - 0) * 0.50084)%float).
Proof. reflexivity. Qed.

Example holiday_on_a_friday :
  Hardcoded.price Hardcoded.RATES sample_account
    (sample_row (mkdate 2025 7 4) 17 1 0) =
  Ok (mkpriced sample_account (sample_row (mkdate 2025 7 4) 17 1 0)
        4 false true true "summer" "on_peak" 0.59908%float
        ((1 - 0) * 0.59908)%float).
Proof. reflexivity. Qed.

Example saturday_night :
  Hardcoded.price Hardcoded.RATES sample_account
    (sample_row (mkdate 2025 1 4) 1 1 0) =
  Ok (mkpriced sample_account (sample_row (mkdate 2025 1 4) 1 1 0)
        5 true false true "winter" "super_off_peak" 0.50084%float
        ((1 - 0) * 0.50084)%float).
Proof. reflexivity. Qed.

(** C1.  The claim: on a weekday, when the base match is off_peak, the month
    is in the override's months and the hour is in the override's range,
    both resolvers return super_off_peak.  At 11:00 on Monday 2025-03-10
    the three conditions hold for the built-in schedule; the hardcoded
    resolver returns super_off_peak, but the configurable resolver returns
    the base match off_peak: its loop returns before the override block is
    read. *)
Theorem override_lost_after_base_match :
  (exists tp periods sp,
      time_periods (self_config builtin_processor) = Some tp /\
      dict_get tp "weekday" = Some periods /\
      scan_periods periods 11 = Ok (Some "off_peak") /\
      dict_get periods "special_periods" = Some (Special sp) /\
      months sp = Some [3; 4] /\
      super_off_peak_extra sp = Some [(10, 14)] /\
      isin 3 [3; 4] = true /\ in_range 11 (10, 14) = true) /\
  Hardcoded.get_time_period (mkdate 2025 3 10) (mktime 11 0) false
    = "super_off_peak" /\
  get_time_period builtin_processor 11 false 3 = Ok "off_peak".
Proof.
  split; [| split; reflexivity].
  eexists _, _, _. repeat split; reflexivity.
Qed.

(** C2.  The claim: for every hour, month and day-type the hardcoded
    resolver and the configurable resolver given the built-in schedule
    return the same tier.  They do not: at 11:00 on the weekday 2025-03-10
    the first returns super_off_peak and the second off_peak. *)
Theorem resolvers_differ_on_override_hours :
  get_time_period builtin_processor
      (hour (mktime 11 0)) false (month (mkdate 2025 3 10))
    <> Ok (Hardcoded.get_time_period (mkdate 2025 3 10) (mktime 11 0) false) /\
  Hardcoded.get_time_period (mkdate 2025 3 10) (mktime 11 0) false
    = "super_off_peak" /\
  get_time_period builtin_processor 11 false 3 = Ok "off_peak".
Proof.
  split; [| split; reflexivity].
  vm_compute. discriminate.
Qed.

(** C7.  Under the built-in schedule and for both day-types, an hour is
    on_peak exactly when it lies in [16, 21): hour 16 is on_peak and hour 15
    is not, hour 20 is on_peak and hour 21 is off_peak. *)
Theorem on_peak_window (d : date) (wh : bool) :
  (forall t, Hardcoded.get_time_period d t wh = "on_peak"
             <-> 16 <= hour t < 21) /\
  (forall mi, Hardcoded.get_time_period d (mktime 16 mi) wh = "on_peak") /\
  (forall mi, Hardcoded.get_time_period d (mktime 15 mi) wh <> "on_peak") /\
  (forall mi, Hardcoded.get_time_period d (mktime 20 mi) wh = "on_peak") /\
  (forall mi, Hardcoded.get_time_period d (mktime 21 mi) wh = "off_peak").
Proof.
  assert (W : forall t, Hardcoded.get_time_period d t wh = "on_peak"
                        <-> 16 <= hour t < 21).
  { intros t. unfold Hardcoded.get_time_period.
    destruct wh;
      destruct (Z.leb_spec 16 (hour t)), (Z.ltb_spec (hour t) 21); simpl;
      try (split; [intros _; lia | reflexivity]);
      (split; [| lia]);
      repeat match goal with
             | |- context [if ?b then _ else _] => destruct b
             end; discriminate. }
  split; [exact W|].
  repeat split; intros mi;
    try (apply W; simpl; lia);
    try (intros H; apply W in H; simpl in H; lia).
  unfold Hardcoded.get_time_period; simpl.
  destruct wh; [reflexivity|].
  now rewrite andb_false_r.
Qed.

(** C9.  The transform the configurable resolver applies to a tier name,
    [replace('_', '_')], returns every string unchanged; the resolver
    therefore returns the name of the matching tier as the schedule
    spells it. *)
Theorem tier_name_transform_is_identity :
  (forall s : string, str_replace s "_" "_" = s) /\
  (forall (self : SDGEProcessor) tp periods (hour : Z) (wh : bool)
          (month : Z) name,
      time_periods (self_config self) = Some tp ->
      dict_get tp (if wh then "weekend_holiday" else "weekday")
        = Some periods ->
      scan_periods periods hour = Ok (Some name) ->
      get_time_period self hour wh month = Ok name).
Proof.
  split.
  - intros s. apply replace_from_same.
  - intros. eapply base_match_returns; eassumption.
Qed.

(** C10.  In the configurable resolver, for a weekday hour that lies in no
    range of the tier entries, the override block is consulted: when the
    month is one of its months and the hour lies in one of its sub-ranges
    the result is super_off_peak, and in every other case it is the
    off_peak fallback. *)
Theorem override_consulted_without_base_match
    (self : SDGEProcessor) tp periods sp ms (hour month : Z) :
  time_periods (self_config self) = Some tp ->
  dict_get tp "weekday" = Some periods ->
  outside_base periods hour ->
  dict_get periods "special_periods" = Some (Special sp) ->
  months sp = Some ms ->
  let extra := match super_off_peak_extra sp with
               | Some l => l
               | None => []
               end in
  let covered := In month ms /\
                 exists r, In r extra /\ fst r <= hour < snd r in
  (covered -> get_time_period self hour false month = Ok "super_off_peak") /\
  (~ covered -> get_time_period self hour false month = Ok "off_peak").
Proof.
  intros Htp Hp Hout Hsp Hms extra covered.
  assert (E : get_time_period self hour false month =
              Ok (if isin month ms && existsb (in_range hour) extra
                  then "super_off_peak" else "off_peak")).
  { unfold get_time_period, getitem, contains.
    rewrite Htp. simpl. rewrite Hp. simpl.
    rewrite (scan_outside _ _ Hout). simpl.
    rewrite Hsp. simpl. rewrite Hms. simpl.
    fold extra.
    destruct (isin month ms); simpl; [|reflexivity].
    now destruct (existsb (in_range hour) extra). }
  assert (C : covered <->
              isin month ms && existsb (in_range hour) extra = true).
  { unfold covered. rewrite andb_true_iff, isin_In, existsb_exists.
    unfold in_range. split.
    - intros [Hm [r [Hr Hh]]]. split; [assumption|].
      exists r. split; [assumption|].
      apply andb_true_iff. split; [apply Z.leb_le | apply Z.ltb_lt]; lia.
    - intros [Hm [r [Hr Hh]]]. split; [assumption|].
      exists r. split; [assumption|].
      apply andb_true_iff in Hh. destruct Hh as [H1 H2].
      apply Z.leb_le in H1. apply Z.ltb_lt in H2. lia. }
  rewrite E. split.
  - intros Hc. apply C in Hc. now rewrite Hc.
  - intros Hn.
    destruct (isin month ms && existsb (in_range hour) extra) eqn:B;
      [| reflexivity].
    exfalso. apply Hn, C. reflexivity.
Qed.

Lemma override_consulted_without_base_match_witness :
  get_time_period holed_processor 11 false 3 = Ok "super_off_peak" /\
  get_time_period holed_processor 11 false 7 = Ok "off_peak".
Proof.
  assert (Hout : outside_base
                   [ ("on_peak", Hours [(16, 21)]);
                     ("off_peak", Hours [(6, 10); (14, 16); (21, 24)]);
                     ("super_off_peak", Hours [(0, 6)]);
                     ("special_periods",
                      Special (mkspecial (Some [3; 4]) (Some [(10, 14)]))) ]
                   11).
  { unfold outside_base.
    repeat (apply Forall_cons;
            [first [ left; reflexivity
                   | right; eexists; split; reflexivity ] |]).
    apply Forall_nil. }
  split.
  - apply (override_consulted_without_base_match holed_processor
             _ _ _ _ 11 3 eq_refl eq_refl Hout eq_refl eq_refl).
    simpl. split; [now left |].
    exists (10, 14). simpl. split; [now left | lia].
  - apply (override_consulted_without_base_match holed_processor
             _ _ _ _ 11 7 eq_refl eq_refl Hout eq_refl eq_refl).
    simpl. intros [[H | [H | []]] _]; discriminate.
Defined.

End Resolver.

(* ================================================================== *)
(** * Classification of the intervals of a file *)
(* ================================================================== *)

Section Classification.

Lemma mapM_In {A B : Type} (f : A -> result B) (l : list A) (l' : list B) :
  mapM f l = Ok l' ->
  forall b, In b l' -> exists a, In a l /\ f a = Ok b.
Proof.
  revert l'. induction l as [|a l IH]; simpl; intros l' H b Hb.
  - inversion H; subst. destruct Hb.
  - destruct (f a) as [b0|e] eqn:Fa; simpl in H; [|discriminate].
    destruct (mapM f l) as [bs|e] eqn:M; simpl in H; [|discriminate].
    inversion H; subst. destruct Hb as [<- | Hb].
    + exists a. split; [now left | assumption].
    + destruct (IH bs eq_refl b Hb) as [a' [Ha' Fa']].
      exists a'. split; [now right | assumption].
Qed.

Lemma mapM_raises {A B : Type} (f : A -> result B) (l : list A) a e :
  In a l -> f a = Raise e -> exists e', mapM f l = Raise e'.
Proof.
  induction l as [|x l IH]; simpl; intros Ha Fa; [destruct Ha|].
  destruct (f x) as [b|e0] eqn:Fx; simpl; [|now exists e0].
  destruct Ha as [-> | Ha]; [congruence|].
  destruct (IH Ha Fa) as [e' ->]. simpl. now exists e'.
Qed.

(** A column that was computed has an entry for every row. *)
Lemma mapM_covers {A B : Type} (f : A -> result B) (l : list A) (l' : list B) :
  mapM f l = Ok l' ->
  forall a, In a l -> exists b, In b l' /\ f a = Ok b.
Proof.
  revert l'. induction l as [|x l IH]; simpl; intros l' H a Ha; [destruct Ha|].
  destruct (f x) as [b0|e] eqn:Fx; simpl in H; [|discriminate].
  destruct (mapM f l) as [bs|e] eqn:M; simpl in H; [|discriminate].
  inversion H; subst. destruct Ha as [<- | Ha].
  - exists b0. split; [now left | assumption].
  - destruct (IH bs eq_refl a Ha) as [b [Hb Fb]].
    exists b. split; [now right | assumption].
Qed.

Lemma bind_Ok {A B : Type} (r : result A) (k : A -> result B) (b : B) :
  bind r k = Ok b -> exists a, r = Ok a /\ k a = Ok b.
Proof. destruct r as [a|e]; simpl; intros H; [now exists a | discriminate]. Qed.

(** ** The sign of a binary64 product

    The product of a negative and a positive number is rounded to a
    negative number, to minus infinity or, when it underflows, to the
    negative zero: it is never positive and never NaN. *)
Lemma shr_1_nonneg (mrs : shr_record) :
  0 <= shr_m mrs -> 0 <= shr_m (shr_1 mrs).
Proof.
  destruct mrs as [m r s]. simpl. intros H.
  destruct m as [|p|p]; [simpl; lia | destruct p; simpl; lia | lia].
Qed.

Lemma iter_shr_1_nonneg (p : positive) (mrs : shr_record) :
  0 <= shr_m mrs -> 0 <= shr_m (SpecFloat.iter_pos shr_1 p mrs).
Proof.
  revert mrs. induction p as [p IH|p IH|]; intros mrs H; simpl.
  - apply IH, IH, shr_1_nonneg, H.
  - apply IH, IH, H.
  - apply shr_1_nonneg, H.
Qed.

Lemma shr_fexp_nonneg (m e : Z) (l : location) :
  0 <= m -> 0 <= shr_m (fst (shr_fexp prec emax m e l)).
Proof.
  intros H. unfold shr_fexp, shr.
  assert (R : 0 <= shr_m (shr_record_of_loc m l)).
  { destruct l as [|[]]; exact H. }
  destruct (fexp prec emax (Zdigits2 m + e) - e) as [|p|p]; simpl;
    [exact R | apply iter_shr_1_nonneg, R | exact R].
Qed.

Lemma round_nearest_even_nonneg (m : Z) (l : location) :
  0 <= m -> 0 <= round_nearest_even m l.
Proof.
  intros H. destruct l as [|[]]; simpl; try lia.
  destruct (Z.even m); lia.
Qed.

Lemma binary_round_aux_sign (sx : bool) (mx ex : Z) (lx : location) :
  0 <= mx ->
  binary_round_aux prec emax sx mx ex lx = S754_zero sx \/
  binary_round_aux prec emax sx mx ex lx = S754_infinity sx \/
  exists m e, binary_round_aux prec emax sx mx ex lx = S754_finite sx m e.
Proof.
  intros H. unfold binary_round_aux.
  pose proof (shr_fexp_nonneg mx ex lx H) as H1.
  destruct (shr_fexp prec emax mx ex lx) as [mrs' e']. cbn [fst] in H1.
  pose proof (shr_fexp_nonneg _ e' loc_Exact
                (round_nearest_even_nonneg _ (loc_of_shr_record mrs') H1))
    as H2.
  destruct (shr_fexp prec emax _ e' loc_Exact) as [mrs'' e''].
  cbn [fst] in H2.
  destruct (shr_m mrs'') as [|m|m]; [now left | | lia].
  destruct (e'' <=? emax - prec);
    [right; right; now eexists _, _ | right; now left].
Qed.

Lemma mul_neg_pos (x y : float) :
  (x <? 0)%float = true -> (0 <? y)%float = true ->
  (x * y <=? 0)%float = true.
Proof.
  rewrite !ltb_spec, leb_spec, mul_spec.
  change (Prim2SF 0%float) with (S754_zero false).
  unfold SF64mul, SFmul.
  destruct (Prim2SF x) as [sx|sx| |sx mx ex],
           (Prim2SF y) as [sy|sy| |sy my ey];
    try discriminate;
    try (destruct sx; try discriminate; destruct sy; try discriminate;
         reflexivity).
  destruct sx; [|discriminate]. destruct sy; [discriminate|].
  intros _ _. cbn [xorb].
  destruct (binary_round_aux_sign true (Z.pos (mx * my)) (ex + ey) loc_Exact)
    as [-> | [-> | [m [e ->]]]]; [lia | reflexivity ..].
Qed.

Lemma RATES_positive (season period : string) (rate : float) :
  Hardcoded.lookup_rate Hardcoded.RATES season period = Ok rate ->
  (0 <? rate)%float = true.
Proof.
  unfold Hardcoded.lookup_rate, getitem, Hardcoded.RATES. simpl.
  repeat match goal with
         | |- context [if ?b then _ else _] => destruct b; simpl
         | |- Ok _ = Ok _ -> _ => intros H; inversion H; reflexivity
         | |- Raise _ = Ok _ -> _ => discriminate
         end.
Qed.

(** What [Hardcoded.price] stores in a row. *)
Lemma hardcoded_price_row rates acct r p :
  Hardcoded.price rates acct r = Ok p ->
  source p = r /\
  IsWeekendHoliday p = Hardcoded.day_type r.(Date) /\
  Season p = Hardcoded.get_season r.(Date) /\
  TimePeriod p =
    Hardcoded.get_time_period r.(Date) r.(Start_Time) (IsWeekendHoliday p) /\
  Hardcoded.lookup_rate rates (Season p) (TimePeriod p) = Ok (Rate p) /\
  Cost p = (Net r * Rate p)%float.
Proof.
  unfold Hardcoded.price. intros H.
  apply bind_Ok in H. destruct H as [rate [L H]].
  inversion H; subst; simpl. repeat split; assumption.
Qed.

Lemma hardcoded_rows rates f df p :
  Hardcoded.process_file_with rates f = Ok df -> In p df ->
  exists rows acct,
    parsed f = Ok (rows, acct) /\ In (source p) rows /\
    Hardcoded.price rates acct (source p) = Ok p.
Proof.
  unfold Hardcoded.process_file_with. intros H Hp.
  apply bind_Ok in H. destruct H as [[rows acct] [P H]]. cbn [fst snd] in H.
  assert (M : mapM (Hardcoded.price rates acct) rows = Ok df)
    by (destruct rows; [discriminate | exact H]).
  destruct (mapM_In _ _ _ M p Hp) as [r [Hr Pr]].
  exists rows, acct.
  destruct (hardcoded_price_row _ _ _ _ Pr) as [S _]. rewrite S.
  repeat split; assumption.
Qed.

(** What [Configurable.process_file] stores in a row. *)
Lemma configurable_rows self f df acct p :
  Configurable.process_file self f = Ok (df, acct) -> In p df ->
  exists rows,
    parsed f = Ok (rows, acct) /\ In (source p) rows /\
    IsWeekendHoliday p = Configurable.day_type self (Date (source p)) /\
    Configurable.get_season self (Date (source p)) = Ok (Season p) /\
    Configurable.get_time_period self (hour (Start_Time (source p)))
      (IsWeekendHoliday p) (month (Date (source p))) = Ok (TimePeriod p) /\
    Configurable.lookup_rate self (Season p) (TimePeriod p)
      = Ok (Configurable.Price (Rate p)) /\
    Cost p = (Net (source p) * Rate p)%float.
Proof.
  unfold Configurable.process_file. intros H Hp.
  apply bind_Ok in H. destruct H as [[rows acct'] [P H]]. cbn [fst snd] in H.
  assert (H' : (c1 <- Configurable.season_column self rows ;;
                c2 <- Configurable.period_column self c1 ;;
                c3 <- Configurable.rate_column self c2 ;;
                df <- Configurable.cost_column self acct' c3 ;;
                Ok (df, acct')) = Ok (df, acct))
    by (destruct rows; [discriminate | exact H]).
  clear H. rename H' into H.
  apply bind_Ok in H. destruct H as [c1 [C1 H]].
  apply bind_Ok in H. destruct H as [c2 [C2 H]].
  apply bind_Ok in H. destruct H as [c3 [C3 H]].
  apply bind_Ok in H. destruct H as [df' [C4 H]].
  inversion H; subst df' acct'. clear H.
  destruct (mapM_In _ _ _ C4 p Hp) as [[[[r s] t] re] [H4 F4]].
  simpl in F4. destruct re as [ms|rate]; [discriminate|].
  inversion F4; subst p; simpl. clear F4.
  destruct (mapM_In _ _ _ C3 _ H4) as [[[r' s'] t'] [H3 F3]].
  simpl in F3. apply bind_Ok in F3. destruct F3 as [re [L F3]].
  inversion F3; subst r' s' t' re. clear F3.
  destruct (mapM_In _ _ _ C2 _ H3) as [[r' s'] [H2 F2]].
  simpl in F2. apply bind_Ok in F2. destruct F2 as [t' [T F2]].
  inversion F2; subst r' s' t'. clear F2.
  destruct (mapM_In _ _ _ C1 _ H2) as [r' [H1 F1]].
  apply bind_Ok in F1. destruct F1 as [s' [S F1]].
  inversion F1; subst r' s'. clear F1.
  exists rows. repeat split; assumption.
Qed.

Lemma date_eqb_eq (a b : date) : date_eqb a b = true <-> a = b.
Proof.
  destruct a as [y m d], b as [y' m' d']. unfold date_eqb. simpl.
  rewrite !andb_true_iff, !Z.eqb_eq. split.
  - intros [[-> ->] ->]. reflexivity.
  - intros H. inversion H. auto.
Qed.

Lemma weekend_days (w : Z) : isin w [5; 6] = true <-> w = 5 \/ w = 6.
Proof. rewrite isin_In. simpl. intuition congruence. Qed.

(** C6, as the code has it.  In both processors every row of a processed
    file carries the rate looked up for its season and tier, and its cost
    is the binary64 product of its net usage and that rate: the product
    rounded to the nearest binary64 number, with no clamping or further
    step.  When the net is negative and the rate is positive, as every
    rate of the built-in table is, the cost is negative or, when the
    product underflows, zero: it is never a charge. *)
Theorem cost_is_net_times_rate :
  (forall f df p,
      Hardcoded.process_file f = Ok df -> In p df ->
      Hardcoded.lookup_rate Hardcoded.RATES (Season p) (TimePeriod p)
        = Ok (Rate p) /\
      Cost p = (Net (source p) * Rate p)%float /\
      ((Net (source p) <? 0)%float = true -> (Cost p <=? 0)%float = true)) /\
  (forall self f df acct p,
      Configurable.process_file self f = Ok (df, acct) -> In p df ->
      Configurable.lookup_rate self (Season p) (TimePeriod p)
        = Ok (Configurable.Price (Rate p)) /\
      Cost p = (Net (source p) * Rate p)%float /\
      ((Net (source p) <? 0)%float = true -> (0 <? Rate p)%float = true ->
       (Cost p <=? 0)%float = true)).
Proof.
  split.
  - intros f df p H Hp.
    destruct (hardcoded_rows _ _ _ _ H Hp) as (rows & acct & _ & _ & Pr).
    destruct (hardcoded_price_row _ _ _ _ Pr) as (_ & _ & _ & _ & L & C).
    repeat split; [exact L | exact C |].
    intros Hneg. rewrite C. apply mul_neg_pos; [assumption|].
    eapply RATES_positive; exact L.
  - intros self f df acct p H Hp.
    destruct (configurable_rows _ _ _ _ _ H Hp)
      as (rows & _ & _ & _ & _ & _ & L & C).
    repeat split; [exact L | exact C |].
    intros Hneg Hpos. rewrite C. now apply mul_neg_pos.
Qed.

Lemma cost_is_net_times_rate_witness :
  (exists df p,
      Hardcoded.process_file credit_file = Ok df /\ In p df /\
      (Net (source p) <? 0)%float = true /\
      Cost p = (Net (source p) * Rate p)%float /\
      (Cost p <=? 0)%float = true) /\
  (exists df acct p,
      Configurable.process_file builtin_processor credit_file = Ok (df, acct)
      /\ In p df /\ (Net (source p) <? 0)%float = true /\
      (0 <? Rate p)%float = true /\
      Cost p = (Net (source p) * Rate p)%float /\
      (Cost p <=? 0)%float = true).
Proof.
  split.
  - eexists. eexists.
    split; [reflexivity|]. split; [left; reflexivity|].
    split; [reflexivity|].
    destruct (proj1 cost_is_net_times_rate credit_file _ _
                eq_refl (or_introl eq_refl)) as (_ & C & S).
    split; [exact C | apply S; reflexivity].
  - eexists. eexists. eexists.
    split; [reflexivity|]. split; [left; reflexivity|].
    split; [reflexivity|]. split; [reflexivity|].
    destruct (proj2 cost_is_net_times_rate builtin_processor credit_file
                _ _ _ eq_refl (or_introl eq_refl)) as (_ & C & S).
    split; [exact C | apply S; reflexivity].
Defined.

(** C6, as stated, fails.  The cost is not the exact product: 1.1 kWh at
    the summer off_peak rate costs 0.5802940000000001, which is not the
    product of the two numbers.  And a negative net does not always give a
    negative cost: the smallest credit at the summer super_off_peak rate
    underflows to a zero, and so does any credit at a configured rate of
    zero. *)
Lemma cost_is_rounded_and_not_always_negative :
  (exists p,
      Hardcoded.process_file rounded_file = Ok [p] /\
      Net (source p) = 1.1%float /\ Rate p = 0.52754%float /\
      Cost p = 0.5802940000000001%float /\
      is_exact_product (Net (source p)) (Rate p) (Cost p) = false) /\
  (exists p,
      Hardcoded.process_file tiny_credit_file = Ok [p] /\
      (Net (source p) <? 0)%float = true /\ Rate p = 0.45%float /\
      Cost p = (-0)%float /\ (Cost p <? 0)%float = false) /\
  (exists p acct,
      Configurable.process_file free_processor credit_file = Ok ([p], acct) /\
      (Net (source p) <? 0)%float = true /\ Rate p = 0%float /\
      Cost p = (-0)%float /\ (Cost p <? 0)%float = false).
Proof.
  split; [|split].
  - eexists. split; [reflexivity|]. repeat split; reflexivity.
  - eexists. split; [reflexivity|]. repeat split; reflexivity.
  - eexists. eexists. split; [reflexivity|]. repeat split; reflexivity.
Qed.

(** C8.  In both processors the day-type of a date is weekend-or-holiday
    exactly when its weekday is Saturday (5) or Sunday (6) or the date is
    in the configured holiday set, and this is the [IsWeekendHoliday] column
    of every processed row; 2025-07-04, a configured holiday falling on a
    Friday, is weekend-or-holiday. *)
Theorem day_type_is_weekend_or_holiday :
  (forall d,
      Hardcoded.day_type d = true <->
      (dayofweek d = 5 \/ dayofweek d = 6) \/
      In (strftime_mdY d) Hardcoded.HOLIDAYS) /\
  (forall self d,
      Configurable.day_type self d = true <->
      (dayofweek d = 5 \/ dayofweek d = 6) \/
      In d (Configurable.self_holidays self)) /\
  (forall rates f df p,
      Hardcoded.process_file_with rates f = Ok df -> In p df ->
      IsWeekendHoliday p = Hardcoded.day_type (Date (source p))) /\
  (forall self f df acct p,
      Configurable.process_file self f = Ok (df, acct) -> In p df ->
      IsWeekendHoliday p = Configurable.day_type self (Date (source p))) /\
  (dayofweek (mkdate 2025 7 4) = 4 /\
   Hardcoded.day_type (mkdate 2025 7 4) = true /\
   Configurable.day_type builtin_processor (mkdate 2025 7 4) = true).
Proof.
  split; [| split; [| split; [| split]]].
  - intros d. unfold Hardcoded.day_type, Hardcoded.is_holiday.
    rewrite orb_true_iff, weekend_days, existsb_exists.
    split; (intros [H | H]; [now left | right]).
    + destruct H as [h [Hh E]]. apply String.eqb_eq in E. now subst.
    + exists (strftime_mdY d). split; [assumption | apply String.eqb_refl].
  - intros self d. unfold Configurable.day_type, Configurable.is_holiday.
    rewrite orb_true_iff, weekend_days, existsb_exists.
    split; (intros [H | H]; [now left | right]).
    + destruct H as [h [Hh E]]. apply date_eqb_eq in E. now subst.
    + exists d. split; [assumption | now apply date_eqb_eq].
  - intros rates f df p H Hp.
    destruct (hardcoded_rows _ _ _ _ H Hp) as (rows & acct & _ & _ & Pr).
    destruct (hardcoded_price_row _ _ _ _ Pr) as (_ & D & _). exact D.
  - intros self f df acct p H Hp.
    destruct (configurable_rows _ _ _ _ _ H Hp) as (rows & _ & _ & D & _).
    exact D.
  - repeat split; reflexivity.
Qed.

End Classification.

(* ================================================================== *)
(** * The batch loop and the aggregation *)
(* ================================================================== *)

Section Batch.

(** ** Rows and groups up to the order of the rows *)
















(** ** The loop over the files *)

Lemma hardcoded_loop rates (l : list gbd_file) all_data out :
  Hardcoded.loop_with rates l all_data out =
  (all_data ++ flat_map (Hardcoded.file_data rates) l,
   out ++ flat_map (Hardcoded.file_lines rates) l).
Proof.
  revert all_data out. induction l as [|f l IH]; intros all_data out; simpl.
  - now rewrite !app_nil_r.
  - unfold Hardcoded.file_data, Hardcoded.file_lines.
    destruct (Hardcoded.process_file_with rates f) as [df|e];
      rewrite IH; simpl; rewrite <- !app_assoc; reflexivity.
Qed.

Lemma configurable_loop self (l : list gbd_file) all_data out :
  Configurable.loop self l all_data out =
  (all_data ++ flat_map (Configurable.file_data self) l,
   out ++ flat_map (Configurable.file_lines self) l).
Proof.
  revert all_data out. induction l as [|f l IH]; intros all_data out; simpl.
  - now rewrite !app_nil_r.
  - unfold Configurable.file_data, Configurable.file_lines.
    destruct (Configurable.process_file self f) as [[df acct]|e];
      rewrite IH; simpl; rewrite <- !app_assoc; reflexivity.
Qed.




(** The rows written and the summary printed, from what the files
    contributed to [all_data]. *)
Lemma hardcoded_saved rates (l : list gbd_file) :
  saved (Hardcoded.process_gbd_files_with rates l) =
  match flat_map (Hardcoded.file_data rates) l with
  | [] => None
  | all_data => Some (concat all_data)
  end.
Proof.
  unfold Hardcoded.process_gbd_files_with.
  destruct l as [|f l]; [reflexivity|].
  rewrite hardcoded_loop. cbn [app].
  now destruct (flat_map (Hardcoded.file_data rates) (f :: l)).
Qed.

Lemma configurable_saved self (l : list gbd_file) :
  saved (Configurable.process_folder self l) =
  match flat_map (Configurable.file_data self) l with
  | [] => None
  | all_data => Some (concat all_data)
  end.
Proof.
  unfold Configurable.process_folder.
  destruct l as [|f l]; [reflexivity|].
  rewrite configurable_loop. cbn [app].
  now destruct (flat_map (Configurable.file_data self) (f :: l)).
Qed.















(** ** A file whose rate lookup fails *)

Lemma hardcoded_missing_rate rates f rows acct r e :
  parsed f = Ok (rows, acct) -> In r rows ->
  Hardcoded.lookup_rate rates
    (Hardcoded.get_season (Date r))
    (Hardcoded.get_time_period (Date r) (Start_Time r)
       (Hardcoded.day_type (Date r))) = Raise e ->
  exists e', Hardcoded.process_file_with rates f = Raise e'.
Proof.
  intros Pf Hr L. unfold Hardcoded.process_file_with. rewrite Pf.
  cbn [bind fst snd].
  assert (E : exists e', mapM (Hardcoded.price rates acct) rows = Raise e').
  { apply (mapM_raises _ _ r e Hr). unfold Hardcoded.price. now rewrite L. }
  destruct rows; [destruct Hr | exact E].
Qed.

Lemma configurable_missing_rate self f rows acct r s t e :
  parsed f = Ok (rows, acct) -> In r rows ->
  Configurable.get_season self (Date r) = Ok s ->
  Configurable.get_time_period self (hour (Start_Time r))
    (Configurable.day_type self (Date r)) (month (Date r)) = Ok t ->
  Configurable.lookup_rate self s t = Raise e ->
  exists e', Configurable.process_file self f = Raise e'.
Proof.
  intros Pf Hr S T L. unfold Configurable.process_file. rewrite Pf.
  cbn [bind fst snd].
  assert (R : rows <> []) by (intros ->; destruct Hr).
  destruct rows as [|r0 rows0] eqn:Erows; [congruence|].
  rewrite <- Erows in *. clear R Erows r0 rows0.
  destruct (Configurable.season_column self rows) as [c1|e1] eqn:C1;
    simpl; [|now exists e1].
  destruct (mapM_covers _ _ _ C1 r Hr) as [b1 [H1 F1]].
  rewrite S in F1. simpl in F1. inversion F1; subst b1. clear F1.
  destruct (Configurable.period_column self c1) as [c2|e2] eqn:C2;
    simpl; [|now exists e2].
  destruct (mapM_covers _ _ _ C2 _ H1) as [b2 [H2 F2]].
  simpl in F2. rewrite T in F2. simpl in F2. inversion F2; subst b2. clear F2.
  destruct (mapM_raises
              (fun rst =>
                 rate <- Configurable.lookup_rate self (snd (fst rst)) (snd rst) ;;
                 Ok (rst, rate)) c2 (r, s, t) e H2) as [e' E'].
  { simpl. now rewrite L. }
  unfold Configurable.rate_column. rewrite E'. simpl. now exists e'.
Qed.

(** C3.  In both processors, when the rate lookup fails for the season and
    tier of some interval of a file, processing that file raises; the loop
    prints the error, leaves [all_data] as it was and goes on with the
    remaining files, and the rows saved by the batch are those of the batch
    without the file. *)
Theorem missing_rate_skips_only_its_file :
  (forall rates pre f post rows acct r e,
      parsed f = Ok (rows, acct) -> In r rows ->
      Hardcoded.lookup_rate rates
        (Hardcoded.get_season (Date r))
        (Hardcoded.get_time_period (Date r) (Start_Time r)
           (Hardcoded.day_type (Date r))) = Raise e ->
      exists e',
        Hardcoded.process_file_with rates f = Raise e' /\
        (forall all_data out,
            Hardcoded.loop_with rates (f :: post) all_data out =
            Hardcoded.loop_with rates post all_data
              (out ++ [Processing (basename f); FileError e'])) /\
        In (FileError e')
           (printed (Hardcoded.process_gbd_files_with rates
                       (pre ++ f :: post))) /\
        saved (Hardcoded.process_gbd_files_with rates (pre ++ f :: post)) =
        saved (Hardcoded.process_gbd_files_with rates (pre ++ post))) /\
  (forall self pre f post rows acct r s t e,
      parsed f = Ok (rows, acct) -> In r rows ->
      Configurable.get_season self (Date r) = Ok s ->
      Configurable.get_time_period self (hour (Start_Time r))
        (Configurable.day_type self (Date r)) (month (Date r)) = Ok t ->
      Configurable.lookup_rate self s t = Raise e ->
      exists e',
        Configurable.process_file self f = Raise e' /\
        (forall all_data out,
            Configurable.loop self (f :: post) all_data out =
            Configurable.loop self post all_data
              (out ++ [Processing (basename f); FileError e'])) /\
        In (FileError e')
           (printed (Configurable.process_folder self (pre ++ f :: post))) /\
        saved (Configurable.process_folder self (pre ++ f :: post)) =
        saved (Configurable.process_folder self (pre ++ post))).
Proof.
  split.
  - intros rates pre f post rows acct r e Pf Hr L.
    destruct (hardcoded_missing_rate _ _ _ _ _ _ Pf Hr L) as [e' E'].
    exists e'. split; [exact E'|]. split; [|split].
    + intros all_data out. simpl. rewrite E'.
      now rewrite <- app_assoc.
    + unfold Hardcoded.process_gbd_files_with.
      destruct (pre ++ f :: post) as [|g rest] eqn:El;
        [now destruct pre|].
      rewrite <- El, hardcoded_loop. clear El.
      assert (I : forall tl, In (FileError e')
                    (([Found (List.length (pre ++ f :: post))] ++
                      flat_map (Hardcoded.file_lines rates) (pre ++ f :: post))
                     ++ tl)).
      { intros tl. apply in_or_app. left. apply in_or_app. right.
        rewrite flat_map_app. apply in_or_app. right. simpl.
        unfold Hardcoded.file_lines at 1. rewrite E'. simpl. auto. }
      destruct ([] ++ flat_map (Hardcoded.file_data rates) (pre ++ f :: post));
        apply I.
    + rewrite !hardcoded_saved, !flat_map_app. simpl.
      unfold Hardcoded.file_data at 2. now rewrite E'.
  - intros self pre f post rows acct r s t e Pf Hr S T L.
    destruct (configurable_missing_rate _ _ _ _ _ _ _ _ Pf Hr S T L)
      as [e' E'].
    exists e'. split; [exact E'|]. split; [|split].
    + intros all_data out. simpl. rewrite E'.
      now rewrite <- app_assoc.
    + unfold Configurable.process_folder.
      destruct (pre ++ f :: post) as [|g rest] eqn:El;
        [now destruct pre|].
      rewrite <- El, configurable_loop. clear El.
      assert (I : forall tl, In (FileError e')
                    (([Found (List.length (pre ++ f :: post))] ++
                      flat_map (Configurable.file_lines self)
                        (pre ++ f :: post))
                     ++ tl)).
      { intros tl. apply in_or_app. left. apply in_or_app. right.
        rewrite flat_map_app. apply in_or_app. right. simpl.
        unfold Configurable.file_lines at 1. rewrite E'. simpl. auto. }
      destruct ([] ++ flat_map (Configurable.file_data self)
                        (pre ++ f :: post)).
      * specialize (I []). now rewrite app_nil_r in I.
      * apply I.
    + rewrite !configurable_saved, !flat_map_app. simpl.
      unfold Configurable.file_data at 2. now rewrite E'.
Qed.

Lemma missing_rate_skips_only_its_file_witness :
  (exists e',
      Hardcoded.process_file_with summer_only_rates winter_file = Raise e' /\
      In (FileError e')
         (printed (Hardcoded.process_gbd_files_with summer_only_rates
                     [credit_file; winter_file; peak_file])) /\
      saved (Hardcoded.process_gbd_files_with summer_only_rates
               [credit_file; winter_file; peak_file]) =
      saved (Hardcoded.process_gbd_files_with summer_only_rates
               [credit_file; peak_file])) /\
  (exists e',
      Configurable.process_file partial_processor winter_file = Raise e' /\
      In (FileError e')
         (printed (Configurable.process_folder partial_processor
                     [credit_file; winter_file; peak_file])) /\
      saved (Configurable.process_folder partial_processor
               [credit_file; winter_file; peak_file]) =
      saved (Configurable.process_folder partial_processor
               [credit_file; peak_file])).
Proof.
  split.
  - destruct (proj1 missing_rate_skips_only_its_file
                summer_only_rates [credit_file] winter_file [peak_file]
                _ _ _ (KeyError "winter")
                eq_refl (or_introl eq_refl) eq_refl)
      as (e' & E & _ & I & S).
    exists e'. split; [exact E|]. split; [exact I | exact S].
  - destruct (proj2 missing_rate_skips_only_its_file
                partial_processor [credit_file] winter_file [peak_file]
                _ _ _ "winter" "super_off_peak" (KeyError "super_off_peak")
                eq_refl (or_introl eq_refl) eq_refl eq_refl eq_refl)
      as (e' & E & _ & I & S).
    exists e'. split; [exact E|]. split; [exact I | exact S].
Defined.

End Batch.

(* ================================================================== *)
(** * Loading a schedule description *)
(* ================================================================== *)

Section Loading.

Import Configurable.

Lemma mapM_succeeds {A B : Type} (f : A -> result B) (l : list A) :
  (exists l', mapM f l = Ok l') <-> Forall (fun a => exists b, f a = Ok b) l.
Proof.
  induction l as [|a l IH]; simpl.
  - split; [constructor | now exists []].
  - split.
    + intros [l' H].
      destruct (f a) as [b|e] eqn:Fa; simpl in H; [|discriminate].
      destruct (mapM f l) as [bs|e] eqn:M; simpl in H; [|discriminate].
      constructor; [now exists b|]. apply IH. now exists bs.
    + intros H. inversion H as [|x xs [b Fa] Hl]; subst.
      apply IH in Hl. destruct Hl as [bs M].
      rewrite Fa, M. simpl. now exists (b :: bs).
Qed.

(** C4, as the code has it.  Loading a schedule description reads its
    holiday list and nothing else: it succeeds exactly when the [holidays]
    key is present and each entry is a year-month-day date, whatever the
    seasons and the hour ranges are, and keeps the description as it is; a
    failure of the load ends the run before any file is processed. *)
Theorem load_checks_holidays_only (cfg : config) :
  ((exists self, init cfg = Ok self) <->
   (exists hs, holidays cfg = Some hs /\
               Forall (fun h => exists d, strptime_Ymd h = Ok d) hs)) /\
  (forall self, init cfg = Ok self -> self_config self = cfg) /\
  (forall e csv_files, init cfg = Raise e -> main cfg csv_files = Raise e).
Proof.
  unfold main, init, key. split; [|split].
  - destruct (holidays cfg) as [hs|]; simpl.
    + split.
      * intros [self H]. exists hs. split; [reflexivity|].
        apply mapM_succeeds.
        destruct (mapM strptime_Ymd hs) as [ds|e]; simpl in H;
          [now exists ds | discriminate].
      * intros [hs' [E F]]. inversion E; subst hs'.
        apply mapM_succeeds in F. destruct F as [ds M].
        rewrite M. simpl. now eexists.
    + split; [intros [self H]; discriminate | intros [hs [E _]]; discriminate].
  - intros self H.
    destruct (holidays cfg) as [hs|]; simpl in H; [|discriminate].
    destruct (mapM strptime_Ymd hs) as [ds|e]; simpl in H; [|discriminate].
    now inversion H.
  - intros e csv_files H. now rewrite H.
Qed.

(** C4, as stated, fails: a schedule description with no month in either
    season, an inverted range and hours past 24 is loaded, and the files of
    the folder are then processed with it. *)
Lemma invalid_schedule_is_loaded :
  season_coverage broken_config = false /\
  ranges_well_formed broken_config = false /\
  valid_schedule broken_config = false /\
  exists self out rows,
    init broken_config = Ok self /\
    main broken_config [credit_file] = Ok out /\
    saved out = Some rows /\
    List.length rows = 1%nat.
Proof.
  repeat split; try reflexivity.
  eexists. eexists. eexists.
  split; [reflexivity|]. split; [reflexivity|]. split; reflexivity.
Qed.

End Loading.


(* ================================================================== *)
(** * The hardcoded processor on the files it is given *)
(* ================================================================== *)

Section HardcodedRows.

Lemma mapM_map {A B C : Type} (f : A -> result B) (g : B -> C) (h : A -> C)
    (l : list A) (l' : list B) :
  (forall a b, f a = Ok b -> g b = h a) ->
  mapM f l = Ok l' -> map g l' = map h l.
Proof.
  intros H. revert l'. induction l as [|a l IH]; simpl; intros l' M.
  - now inversion M.
  - destruct (f a) as [b|e] eqn:Fa; simpl in M; [|discriminate].
    destruct (mapM f l) as [bs|e] eqn:Ml; simpl in M; [|discriminate].
    inversion M; subst. simpl. now rewrite (H a b Fa), (IH bs eq_refl).
Qed.

Lemma mapM_total {A B : Type} (f : A -> result B) (l : list A) :
  (forall a, In a l -> exists b, f a = Ok b) -> exists l', mapM f l = Ok l'.
Proof.
  induction l as [|a l IH]; simpl; intros H.
  - now exists [].
  - destruct (H a (or_introl eq_refl)) as [b ->].
    destruct IH as [bs ->]; [intros x Hx; apply H; now right|].
    simpl. now exists (b :: bs).
Qed.

(** The tiers and seasons the hardcoded functions can return. *)
Lemma hardcoded_tiers (d : date) (t : time) (wh : bool) :
  Hardcoded.get_time_period d t wh = "on_peak" \/
  Hardcoded.get_time_period d t wh = "off_peak" \/
  Hardcoded.get_time_period d t wh = "super_off_peak".
Proof.
  unfold Hardcoded.get_time_period.
  destruct wh;
    repeat match goal with
           | |- context [if ?b then _ else _] => destruct b
           end; auto.
Qed.

Lemma hardcoded_seasons (d : date) :
  Hardcoded.get_season d = "summer" \/ Hardcoded.get_season d = "winter".
Proof.
  unfold Hardcoded.get_season.
  destruct ((6 <=? month d) && (month d <=? 10)); auto.
Qed.

Lemma hardcoded_rate_found (d : date) (t : time) (wh : bool) :
  exists rate,
    Hardcoded.lookup_rate Hardcoded.RATES (Hardcoded.get_season d)
      (Hardcoded.get_time_period d t wh) = Ok rate.
Proof.
  destruct (hardcoded_seasons d) as [-> | ->];
    destruct (hardcoded_tiers d t wh) as [-> | [-> | ->]];
    eexists; reflexivity.
Qed.

Lemma hardcoded_price_total rates acct r :
  (exists rate,
      Hardcoded.lookup_rate rates (Hardcoded.get_season (Date r))
        (Hardcoded.get_time_period (Date r) (Start_Time r)
           (Hardcoded.day_type (Date r))) = Ok rate) ->
  exists p, Hardcoded.price rates acct r = Ok p.
Proof.
  intros [rate L]. unfold Hardcoded.price. rewrite L. simpl. now eexists.
Qed.

Lemma hardcoded_price_account rates acct r p :
  Hardcoded.price rates acct r = Ok p -> account p = acct.
Proof.
  unfold Hardcoded.price. intros H.
  apply bind_Ok in H. destruct H as [rate [_ H]]. now inversion H.
Qed.

Lemma hardcoded_priced_when_parsed (f : gbd_file) r rows acct :
  parsed f = Ok (r :: rows, acct) ->
  exists df,
    Hardcoded.process_file f = Ok df /\
    map source df = r :: rows /\
    Forall (fun p => account p = acct) df.
Proof.
  intros Pf.
  unfold Hardcoded.process_file, Hardcoded.process_file_with.
  rewrite Pf. cbn [bind fst snd].
  destruct (mapM_total (Hardcoded.price Hardcoded.RATES acct) (r :: rows))
    as [df M].
  { intros x _. apply hardcoded_price_total, hardcoded_rate_found. }
  exists df. split; [exact M|]. split.
  - rewrite (mapM_map (Hardcoded.price Hardcoded.RATES acct) source
               (fun x => x) (r :: rows) df); [apply map_id | | exact M].
    intros x p Pr. now destruct (hardcoded_price_row _ _ _ _ Pr).
  - apply Forall_forall. intros p Hp.
    destruct (mapM_In _ _ _ M p Hp) as [x [_ Pr]].
    eapply hardcoded_price_account; exact Pr.
Qed.

Lemma hardcoded_raises_without_rows (f : gbd_file) acct :
  parsed f = Ok ([], acct) -> Hardcoded.process_file f = Raise TypeError.
Proof.
  intros Pf. unfold Hardcoded.process_file, Hardcoded.process_file_with.
  now rewrite Pf.
Qed.

Lemma hardcoded_raises_when_unparsed (f : gbd_file) (e : exn) :
  parsed f = Raise e -> Hardcoded.process_file f = Raise e.
Proof.
  intros Pf. unfold Hardcoded.process_file, Hardcoded.process_file_with.
  now rewrite Pf.
Qed.

(** With the built-in rate table the classification of an interval cannot
    fail: a file that ingestion delivered with at least one interval is
    processed, into one row per interval, in the order of the intervals
    and each with the account of the file.  A file delivered without any
    interval raises TypeError ([IsWeekend | IsHoliday] on the empty
    frame), and a file whose ingestion raised raises the same exception;
    the processing of a file raises in no other case. *)
Theorem hardcoded_file_always_priced (f : gbd_file) :
  (forall r rows acct,
      parsed f = Ok (r :: rows, acct) ->
      exists df,
        Hardcoded.process_file f = Ok df /\
        map source df = r :: rows /\
        Forall (fun p => account p = acct) df) /\
  (forall acct,
      parsed f = Ok ([], acct) ->
      Hardcoded.process_file f = Raise TypeError) /\
  (forall e,
      Hardcoded.process_file f = Raise e <->
      parsed f = Raise e \/
      (e = TypeError /\ exists acct, parsed f = Ok ([], acct))).
Proof.
  split; [|split].
  - apply hardcoded_priced_when_parsed.
  - apply hardcoded_raises_without_rows.
  - intros e. split.
    + intros H. destruct (parsed f) as [[[|r rows] acct]|e'] eqn:Pf.
      * rewrite (hardcoded_raises_without_rows f acct Pf) in H.
        inversion H. right. split; [reflexivity | now exists acct].
      * destruct (hardcoded_priced_when_parsed f r rows acct Pf)
          as [df [E _]].
        congruence.
      * rewrite (hardcoded_raises_when_unparsed f e' Pf) in H.
        inversion H. now left.
    + intros [Pf | [-> [acct Pf]]].
      * now apply hardcoded_raises_when_unparsed.
      * eapply hardcoded_raises_without_rows; exact Pf.
Qed.

(** Every row the hardcoded processor prices is in summer exactly for the
    months 6 to 10 and in winter otherwise, has one of the three tiers, a
    weekday number from 0 to 6, and a rate between the lowest and the
    highest entry of the table, 0.45 and 0.59908. *)
Theorem hardcoded_row_ranges (f : gbd_file) (df : list priced) (p : priced) :
  Hardcoded.process_file f = Ok df -> In p df ->
  (Season p = "summer" /\ 6 <= month (Date (source p)) <= 10 \/
   Season p = "winter" /\ ~ 6 <= month (Date (source p)) <= 10) /\
  (TimePeriod p = "on_peak" \/ TimePeriod p = "off_peak" \/
   TimePeriod p = "super_off_peak") /\
  0 <= Weekday p <= 6 /\
  (0.45 <=? Rate p)%float = true /\ (Rate p <=? 0.59908)%float = true.
Proof.
  intros H Hp.
  destruct (hardcoded_rows _ _ _ _ H Hp) as (rows & acct & _ & _ & Pr).
  assert (W : Weekday p = dayofweek (Date (source p))).
  { unfold Hardcoded.price in Pr. apply bind_Ok in Pr.
    destruct Pr as [rate [_ Pr]]. now inversion Pr. }
  destruct (hardcoded_price_row _ _ _ _ Pr) as (_ & _ & S & T & L & _).
  split; [|split; [|split]].
  - rewrite S. unfold Hardcoded.get_season.
    destruct (Z.leb_spec 6 (month (Date (source p)))),
             (Z.leb_spec (month (Date (source p))) 10); simpl;
      [left | right | right | right]; split; (reflexivity || lia).
  - rewrite T. apply hardcoded_tiers.
  - rewrite W. unfold dayofweek.
    pose proof (Z.mod_pos_bound (toordinal (Date (source p)) + 6) 7). lia.
  - revert L. rewrite S, T.
    destruct (hardcoded_seasons (Date (source p))) as [-> | ->];
      destruct (hardcoded_tiers (Date (source p)) (Start_Time (source p))
                  (IsWeekendHoliday p)) as [-> | [-> | ->]];
      intros L; inversion L; split; reflexivity.
Qed.

Lemma hardcoded_row_ranges_witness :
  exists df p,
    Hardcoded.process_file credit_file = Ok df /\ In p df /\
    Season p = "summer" /\ TimePeriod p = "off_peak" /\
    (0.45 <=? Rate p)%float = true /\ (Rate p <=? 0.59908)%float = true.
Proof.
  eexists. eexists.
  split; [reflexivity|]. split; [left; reflexivity|].
  split; [reflexivity|]. split; [reflexivity|].
  exact (proj2 (proj2 (proj2
           (hardcoded_row_ranges credit_file _ _ eq_refl
              (or_introl eq_refl))))).
Defined.

(** The hardcoded resolver reads the date only to tell March and April
    from the other months, and only for the weekday hours 10 to 13: two
    dates give the same tier on a weekend or holiday, outside those hours,
    or when both or neither are in March or April. *)
Theorem time_period_reads_month_for_override_only
    (d d' : date) (t : time) (wh : bool) :
  wh = true \/ ~ 10 <= hour t < 14 \/
  (In (month d) [3; 4] <-> In (month d') [3; 4]) ->
  Hardcoded.get_time_period d t wh = Hardcoded.get_time_period d' t wh.
Proof.
  intros H. unfold Hardcoded.get_time_period.
  destruct wh; [reflexivity|].
  destruct H as [H | [H | H]]; [discriminate | |].
  - destruct (Z.leb_spec 10 (hour t)), (Z.ltb_spec (hour t) 14); simpl;
      try lia; now rewrite ?andb_false_r.
  - assert (E : isin (month d) [3; 4] = isin (month d') [3; 4]).
    { destruct (isin (month d) [3; 4]) eqn:A,
               (isin (month d') [3; 4]) eqn:B; try reflexivity.
      - apply isin_In, H, isin_In in A. congruence.
      - apply isin_In, H, isin_In in B. congruence. }
    now rewrite E.
Qed.

Lemma time_period_reads_month_for_override_only_witness :
  Hardcoded.get_time_period (mkdate 2025 3 10) (mktime 15 0) false =
  Hardcoded.get_time_period (mkdate 2031 8 29) (mktime 15 0) false /\
  Hardcoded.get_time_period (mkdate 2025 3 10) (mktime 11 0) false =
  Hardcoded.get_time_period (mkdate 2026 4 1) (mktime 11 0) false.
Proof.
  split.
  - apply time_period_reads_month_for_override_only.
    right. left. simpl. lia.
  - apply time_period_reads_month_for_override_only.
    right. right. simpl. split; intros _; auto.
Defined.

End HardcodedRows.

(* ================================================================== *)
(** * Holidays and seasons of the two processors *)
(* ================================================================== *)

Section Calendar.

Lemma uint_string_no_slash (d : Decimal.uint) :
  Ingest.char_in (NilEmpty.string_of_uint d) "/" = false.
Proof. induction d; simpl; auto. Qed.

Lemma Z_to_string_no_slash (n : Z) :
  Ingest.char_in (Z_to_string n) "/" = false.
Proof.
  unfold Z_to_string.
  destruct (Z.to_int n) as [d|d]; simpl; apply uint_string_no_slash.
Qed.

Lemma Z_to_string_inj (n n' : Z) : Z_to_string n = Z_to_string n' -> n = n'.
Proof.
  unfold Z_to_string. intros H. apply DecimalZ.to_int_inj.
  assert (E : Some (Z.to_int n) = Some (Z.to_int n')).
  { rewrite <- !NilEmpty.isi. now rewrite H. }
  now inversion E.
Qed.

(** Two strings cut at their first [c] are equal piece by piece. *)
Lemma first_separator (c : ascii) (a a' r r' : string) :
  Ingest.char_in a c = false -> Ingest.char_in a' c = false ->
  (a ++ String c r = a' ++ String c r')%string -> a = a' /\ r = r'.
Proof.
  revert a'. induction a as [|x a IH]; intros [|x' a'] Ha Ha' E;
    simpl in *.
  - inversion E. auto.
  - inversion E; subst x'. rewrite Ascii.eqb_refl in Ha'. discriminate.
  - inversion E; subst x. rewrite Ascii.eqb_refl in Ha. discriminate.
  - inversion E; subst x'.
    apply orb_false_iff in Ha. apply orb_false_iff in Ha'.
    destruct (IH a' (proj2 Ha) (proj2 Ha') H1) as [-> ->]. auto.
Qed.

Lemma strftime_mdY_inj (d d' : date) :
  strftime_mdY d = strftime_mdY d' -> d = d'.
Proof.
  destruct d as [y m dd], d' as [y' m' dd']. unfold strftime_mdY. simpl.
  intros E.
  apply first_separator in E; try apply Z_to_string_no_slash.
  destruct E as [Em E].
  apply first_separator in E; try apply Z_to_string_no_slash.
  destruct E as [Ed Ey].
  apply Z_to_string_inj in Em, Ed, Ey. now subst.
Qed.

Lemma hardcoded_holiday_dates (d : date) :
  Hardcoded.is_holiday d = true <-> In d HOLIDAY_DATES.
Proof.
  unfold Hardcoded.is_holiday. rewrite existsb_exists.
  change Hardcoded.HOLIDAYS with (map strftime_mdY HOLIDAY_DATES).
  split.
  - intros [h [Hh E]]. apply String.eqb_eq in E. subst h.
    apply in_map_iff in Hh. destruct Hh as [d' [E Hd']].
    apply strftime_mdY_inj in E. now subst.
  - intros Hd. exists (strftime_mdY d). split.
    + now apply in_map.
    + apply String.eqb_refl.
Qed.

(** The hardcoded [is_holiday] holds for exactly eight dates, the ones of
    2025 its list spells: no date of another year is a holiday, whatever
    its month and day. *)
Theorem hardcoded_holidays_are_of_2025 (d : date) :
  (Hardcoded.is_holiday d = true <-> In d HOLIDAY_DATES) /\
  (year d <> 2025 -> Hardcoded.is_holiday d = false).
Proof.
  split; [apply hardcoded_holiday_dates|].
  intros Hy. destruct (Hardcoded.is_holiday d) eqn:E; [|reflexivity].
  apply hardcoded_holiday_dates in E. exfalso. apply Hy.
  repeat (destruct E as [<- | E]; [reflexivity|]). destruct E.
Qed.

(** A configurable processor whose holidays are the same eight dates and
    whose summer months are 6 to 10 gives every date the day-type and the
    season the hardcoded processor gives it, including month numbers that
    no calendar has. *)
Theorem same_calendar_same_classification
    (self : Configurable.SDGEProcessor) rs summer (d : date) :
  Configurable.self_holidays self = HOLIDAY_DATES ->
  Configurable.rates (Configurable.self_config self) = Some rs ->
  dict_get rs "summer" = Some summer ->
  dict_get summer "months" = Some (Configurable.Months [6; 7; 8; 9; 10]) ->
  Configurable.day_type self d = Hardcoded.day_type d /\
  Configurable.get_season self d = Ok (Hardcoded.get_season d).
Proof.
  intros Hh Hr Hs Hm. split.
  - unfold Configurable.day_type, Hardcoded.day_type. f_equal.
    unfold Configurable.is_holiday. rewrite Hh.
    destruct (Hardcoded.is_holiday d) eqn:E.
    + apply hardcoded_holiday_dates in E. apply existsb_exists.
      exists d. split; [assumption | now apply date_eqb_eq].
    + destruct (existsb (date_eqb d) HOLIDAY_DATES) eqn:X; [|reflexivity].
      apply existsb_exists in X. destruct X as [d' [Hd' X]].
      apply date_eqb_eq in X. subst d'.
      apply hardcoded_holiday_dates in Hd'. congruence.
  - unfold Configurable.get_season, Configurable.key, getitem.
    rewrite Hr. cbn [bind]. rewrite Hs. cbn [bind]. rewrite Hm. cbn [bind].
    unfold Hardcoded.get_season.
    destruct (isin (month d) [6; 7; 8; 9; 10]) eqn:I.
    + apply isin_In in I.
      replace ((6 <=? month d) && (month d <=? 10)) with true;
        [reflexivity|].
      symmetry. apply andb_true_iff.
      rewrite Z.leb_le, Z.leb_le. simpl in I. lia.
    + replace ((6 <=? month d) && (month d <=? 10)) with false;
        [reflexivity|].
      symmetry. apply andb_false_iff.
      rewrite !Z.leb_gt.
      destruct (Z_lt_le_dec (month d) 6) as [L|L]; [now left|].
      destruct (Z_lt_le_dec 10 (month d)) as [G|G]; [now right|].
      exfalso. assert (In (month d) [6; 7; 8; 9; 10]) by (simpl; lia).
      apply isin_In in H. congruence.
Qed.

Lemma same_calendar_same_classification_witness :
  Configurable.day_type builtin_processor (mkdate 2025 11 27) =
  Hardcoded.day_type (mkdate 2025 11 27) /\
  Configurable.get_season builtin_processor (mkdate 2025 11 27) =
  Ok (Hardcoded.get_season (mkdate 2025 11 27)).
Proof.
  exact (same_calendar_same_classification builtin_processor _ _
           (mkdate 2025 11 27) eq_refl eq_refl eq_refl eq_refl).
Defined.

End Calendar.

(* ================================================================== *)
(** * The configurable resolver on arbitrary schedules *)
(* ================================================================== *)

Section Schedules.

Import Configurable.

Lemma scan_app_outside pre rest hour :
  outside_base pre hour ->
  scan_periods (pre ++ rest) hour = scan_periods rest hour.
Proof.
  induction 1 as [|[k v] pre Hkv _ IH]; simpl; [reflexivity|].
  destruct Hkv as [Hk | [l [Hv Hl]]]; simpl in *.
  - subst k. simpl. exact IH.
  - subst v. rewrite Hl. destruct (String.eqb k "special_periods"); exact IH.
Qed.

Lemma scan_found periods hour name :
  scan_periods periods hour = Ok (Some name) ->
  exists l, In (name, Hours l) periods /\ name <> "special_periods" /\
            existsb (in_range hour) l = true.
Proof.
  induction periods as [|[k v] rest IH]; simpl; [discriminate|].
  destruct (String.eqb k "special_periods") eqn:K.
  - intros H. destruct (IH H) as [l [I R]]. exists l. split; [now right | exact R].
  - apply String.eqb_neq in K. destruct v as [l|sp].
    + destruct (existsb (in_range hour) l) eqn:E.
      * intros H. inversion H; subst. exists l. split; [now left | now split].
      * intros H. destruct (IH H) as [l' [I R]].
        exists l'. split; [now right | exact R].
    + destruct (months sp), (super_off_peak_extra sp); try discriminate.
      intros H. destruct (IH H) as [l' [I R]].
      exists l'. split; [now right | exact R].
Qed.

(** When the ranges of several tiers hold the hour, the tier written
    first in the schedule is returned: the entries after the first match,
    overlapping or malformed, are not looked at. *)
Theorem first_tier_in_document_order
    (self : SDGEProcessor) tp pre rest k l (hour : Z) (wh : bool) (month : Z) :
  time_periods (self_config self) = Some tp ->
  dict_get tp (if wh then "weekend_holiday" else "weekday")
    = Some (pre ++ (k, Hours l) :: rest) ->
  outside_base pre hour ->
  k <> "special_periods" ->
  existsb (in_range hour) l = true ->
  get_time_period self hour wh month = Ok k.
Proof.
  intros Htp Hp Hpre Hk Hl.
  eapply base_match_returns; [exact Htp | exact Hp |].
  rewrite (scan_app_outside _ _ _ Hpre). simpl.
  apply String.eqb_neq in Hk. now rewrite Hk, Hl.
Qed.

Lemma first_tier_in_document_order_witness :
  get_time_period peak_first 17 false 7 = Ok "on_peak" /\
  get_time_period peak_second 17 false 7 = Ok "off_peak".
Proof.
  split.
  - apply (first_tier_in_document_order peak_first _ []
             [("off_peak", Hours [(0, 24)])]
             "on_peak" [(16, 21)] 17 false 7 eq_refl eq_refl);
      [apply Forall_nil | discriminate | reflexivity].
  - apply (first_tier_in_document_order peak_second _ []
             [("on_peak", Hours [(16, 21)])]
             "off_peak" [(0, 24)] 17 false 7 eq_refl eq_refl);
      [apply Forall_nil | discriminate | reflexivity].
Defined.

(** A tier the configurable resolver returns is the name of an entry of
    the day-type's schedule one of whose ranges holds the hour, or one of
    the two names the code spells, off_peak and super_off_peak; it is
    never the key special_periods. *)
Theorem resolved_tier_origin
    (self : SDGEProcessor) (hour : Z) (wh : bool) (month : Z) (t : string) :
  get_time_period self hour wh month = Ok t ->
  t <> "special_periods" /\
  (t = "off_peak" \/ t = "super_off_peak" \/
   exists tp periods l,
     time_periods (self_config self) = Some tp /\
     dict_get tp (if wh then "weekend_holiday" else "weekday")
       = Some periods /\
     In (t, Hours l) periods /\ existsb (in_range hour) l = true).
Proof.
  unfold get_time_period, key, getitem. intros H.
  destruct (time_periods (self_config self)) as [tp|] eqn:Htp;
    [|discriminate].
  cbn [bind] in H.
  destruct (dict_get tp (if wh then "weekend_holiday" else "weekday"))
    as [periods|] eqn:Hp; [|discriminate].
  cbn [bind] in H.
  destruct (scan_periods periods hour) as [[name|]|e] eqn:Hs;
    [| |discriminate]; cbn [bind] in H.
  - simpl in H. rewrite replace_from_same in H. inversion H; subst t.
    destruct (scan_found _ _ _ Hs) as [l [I [N E]]].
    split; [exact N|]. right. right. exists tp, periods, l. auto.
  - assert (L : t = "off_peak" \/ t = "super_off_peak").
    { destruct (negb wh && contains periods "special_periods");
        [| inversion H; auto].
      destruct (dict_get periods "special_periods") as [[l|sp]|];
        cbn [bind] in H; try discriminate.
      destruct (months sp) as [ms|]; cbn [bind] in H; [|discriminate].
      destruct (isin month ms); [| inversion H; auto].
      destruct (existsb (in_range hour) _); inversion H; auto. }
    split; [destruct L; subst; discriminate | tauto].
Qed.

Lemma resolved_tier_origin_witness :
  "on_peak" <> "special_periods" /\
  ("on_peak" = "off_peak" \/ "on_peak" = "super_off_peak" \/
   exists tp periods l,
     time_periods (self_config builtin_processor) = Some tp /\
     dict_get tp "weekday" = Some periods /\
     In ("on_peak", Hours l) periods /\ existsb (in_range 17) l = true).
Proof.
  exact (resolved_tier_origin builtin_processor 17 false 7 "on_peak" eq_refl).
Defined.

(** The override block is read only for a weekday hour that no tier
    range holds.  There, a block without its months raises KeyError
    'months' and a block that is a list raises TypeError; on a weekend or
    holiday the same hour falls back to off_peak whatever the block is,
    and an hour held by a tier range returns that tier. *)
Theorem override_block_errors_surface_late
    (self : SDGEProcessor) tp periods (hour month : Z) :
  time_periods (self_config self) = Some tp ->
  (dict_get tp "weekday" = Some periods ->
   scan_periods periods hour = Ok None ->
   (dict_get periods "special_periods" = None ->
    get_time_period self hour false month = Ok "off_peak") /\
   (forall sp,
       dict_get periods "special_periods" = Some (Special sp) ->
       months sp = None ->
       get_time_period self hour false month = Raise (KeyError "months")) /\
   (forall l,
       dict_get periods "special_periods" = Some (Hours l) ->
       get_time_period self hour false month = Raise TypeError)) /\
  (dict_get tp "weekend_holiday" = Some periods ->
   scan_periods periods hour = Ok None ->
   get_time_period self hour true month = Ok "off_peak") /\
  (forall (wh : bool) name,
      dict_get tp (if wh then "weekend_holiday" else "weekday")
        = Some periods ->
      scan_periods periods hour = Ok (Some name) ->
      get_time_period self hour wh month = Ok name).
Proof.
  intros Htp. split; [|split].
  - intros Hp Hs.
    assert (E : forall r,
               (if contains periods "special_periods"
                then sp <- getitem periods "special_periods" ;;
                     match sp with
                     | Hours _ => Raise TypeError
                     | Special special =>
                         ms <- key "months" (months special) ;;
                         (if isin month ms
                          then if existsb (in_range hour)
                                    match super_off_peak_extra special with
                                    | Some l => l
                                    | None => []
                                    end
                               then Ok "super_off_peak"
                               else Ok "off_peak"
                          else Ok "off_peak")
                     end
                else Ok "off_peak") = r ->
               get_time_period self hour false month = r).
    { intros r <-. unfold get_time_period, key at 1, getitem at 1.
      rewrite Htp. cbn [bind]. rewrite Hp. cbn [bind]. rewrite Hs.
      reflexivity. }
    repeat split.
    + intros N. apply E. unfold contains. now rewrite N.
    + intros sp S M. apply E. unfold contains, getitem. rewrite S.
      cbn [bind]. now rewrite M.
    + intros l S. apply E. unfold contains, getitem. now rewrite S.
  - intros Hp Hs. unfold get_time_period, key, getitem.
    rewrite Htp. cbn [bind]. rewrite Hp. cbn [bind]. rewrite Hs.
    reflexivity.
  - intros wh name Hp Hs. eapply base_match_returns; eassumption.
Qed.

Lemma override_block_errors_surface_late_witness :
  get_time_period no_months 11 false 3 = Raise (KeyError "months") /\
  get_time_period no_months 17 false 3 = Ok "on_peak".
Proof.
  split.
  - apply (proj1 (proj2 (proj1 (override_block_errors_surface_late
                                  no_months _ _ 11 3 eq_refl)
                           eq_refl eq_refl))
             (mkspecial None (Some [(10, 14)])));
      reflexivity.
  - apply (proj2 (proj2 (override_block_errors_surface_late no_months _ _
                           17 3 eq_refl)) false "on_peak" eq_refl eq_refl).
Defined.

End Schedules.

(* ================================================================== *)
(** * What a batch saves and prints *)
(* ================================================================== *)

Section Batches.

Lemma flat_map_nil {A B : Type} (f : A -> list B) (l : list A) :
  flat_map f l = [] <-> forall a, In a l -> f a = [].
Proof.
  induction l as [|a l IH]; simpl.
  - split; [intros _ a [] | reflexivity].
  - split.
    + intros H. apply app_eq_nil in H. destruct H as [Ha Hl].
      intros x [<- | Hx]; [assumption | now apply IH].
    + intros H. rewrite (H a (or_introl eq_refl)).
      apply IH. intros x Hx. apply H. now right.
Qed.

Lemma configurable_data_In self (l : list gbd_file) (df : list priced) :
  In df (flat_map (Configurable.file_data self) l) <->
  exists f acct, In f l /\ Configurable.process_file self f = Ok (df, acct).
Proof.
  rewrite in_flat_map. unfold Configurable.file_data. split.
  - intros [f [Hf I]].
    destruct (Configurable.process_file self f) as [[df' acct]|e] eqn:P;
      [|destruct I].
    destruct I as [<- | []]. now exists f, acct.
  - intros [f [acct [Hf P]]]. exists f. split; [assumption|].
    rewrite P. now left.
Qed.





Lemma configurable_nothing_saved self (l : list gbd_file) :
  saved (Configurable.process_folder self l) = None <->
  forall f, In f l -> exists e, Configurable.process_file self f = Raise e.
Proof.
  rewrite configurable_saved.
  destruct (flat_map (Configurable.file_data self) l) as [|df all] eqn:D.
  - split; [intros _ | reflexivity].
    intros f Hf. apply (proj1 (flat_map_nil _ _) D) in Hf.
    unfold Configurable.file_data in Hf.
    destruct (Configurable.process_file self f) as [[df acct]|e];
      [discriminate | now exists e].
  - split; [discriminate|]. intros H. exfalso.
    assert (N : flat_map (Configurable.file_data self) l = []).
    { apply flat_map_nil. intros f Hf. destruct (H f Hf) as [e P].
      unfold Configurable.file_data. now rewrite P. }
    congruence.
Qed.

(** A run of the configurable processor saves the rows of the files whose
    processing succeeded and no other row; it saves nothing exactly when
    the folder is empty or the processing of every file raised. *)
Theorem configurable_saves_successful_files
    (self : Configurable.SDGEProcessor) (l : list gbd_file) :
  (saved (Configurable.process_folder self l) = None <->
   forall f, In f l ->
             exists e, Configurable.process_file self f = Raise e) /\
  (forall out,
      saved (Configurable.process_folder self l) = Some out ->
      forall p,
        In p out <->
        exists f df acct,
          In f l /\ Configurable.process_file self f = Ok (df, acct) /\
          In p df).
Proof.
  split; [apply configurable_nothing_saved|].
  intros out. rewrite configurable_saved.
  destruct (flat_map (Configurable.file_data self) l) as [|df0 all] eqn:D;
    [discriminate|].
  intros H.
  assert (E : out = List.concat (flat_map (Configurable.file_data self) l)).
  { rewrite D. now injection H as <-. }
  rewrite E. clear E H D.
  intros p. rewrite in_concat. split.
  - intros [df [Hdf Hp]]. apply configurable_data_In in Hdf.
    destruct Hdf as [f [acct [Hf P]]]. now exists f, df, acct.
  - intros [f [df [acct [Hf [P Hp]]]]]. exists df. split; [|assumption].
    apply configurable_data_In. now exists f, acct.
Qed.

(** ** The lines printed for the files *)

Lemma announced_app (a b : list line) :
  announced (a ++ b) = announced a ++ announced b.
Proof.
  induction a as [|x a IH]; simpl; [reflexivity|].
  destruct x; simpl; now rewrite IH.
Qed.

Lemma reported_app (a b : list line) :
  reported (a ++ b) = reported a ++ reported b.
Proof.
  induction a as [|x a IH]; simpl; [reflexivity|].
  destruct x; simpl; now rewrite IH.
Qed.

Lemma announced_summary {A : Type} (f : A -> line) (l : list A) :
  (forall a, is_summary (f a) = true) ->
  announced (map f l) = [] /\ reported (map f l) = [].
Proof.
  intros H. induction l as [|a l [IA IR]]; simpl; [auto|].
  specialize (H a). destruct (f a); try discriminate; auto.
Qed.

Lemma hardcoded_lines_announced rates (l : list gbd_file) :
  announced (flat_map (Hardcoded.file_lines rates) l) = map basename l /\
  reported (flat_map (Hardcoded.file_lines rates) l) =
  flat_map (fun f => match Hardcoded.process_file_with rates f with
                     | Ok _ => []
                     | Raise e => [e]
                     end) l.
Proof.
  induction l as [|f l [IA IR]]; simpl; [auto|].
  rewrite announced_app, reported_app, IA, IR.
  unfold Hardcoded.file_lines.
  destruct (Hardcoded.process_file_with rates f); simpl; auto.
Qed.

Lemma configurable_lines_announced self (l : list gbd_file) :
  announced (flat_map (Configurable.file_lines self) l) = map basename l /\
  reported (flat_map (Configurable.file_lines self) l) =
  flat_map (fun f => match Configurable.process_file self f with
                     | Ok _ => []
                     | Raise e => [e]
                     end) l.
Proof.
  induction l as [|f l [IA IR]]; simpl; [auto|].
  rewrite announced_app, reported_app, IA, IR.
  unfold Configurable.file_lines.
  destruct (Configurable.process_file self f) as [[df acct]|e]; simpl; auto.
Qed.

(** Both processors announce every file of the folder once, in the order
    processed, whether its processing succeeds or raises, and report the
    exceptions raised, one per failing file and in the same order; the
    hardcoded processor reports the exceptions of ingestion and a
    TypeError for each file delivered without any interval, and no
    other. *)
Theorem every_file_announced (l : list gbd_file) :
  (announced (printed (Hardcoded.process_gbd_files l)) = map basename l /\
   reported (printed (Hardcoded.process_gbd_files l)) =
   flat_map (fun f => match parsed f with
                      | Ok ([], _) => [TypeError]
                      | Ok (_ :: _, _) => []
                      | Raise e => [e]
                      end) l) /\
  (forall self,
      announced (printed (Configurable.process_folder self l))
        = map basename l /\
      reported (printed (Configurable.process_folder self l)) =
      flat_map (fun f => match Configurable.process_file self f with
                         | Ok _ => []
                         | Raise e => [e]
                         end) l).
Proof.
  split.
  - destruct l as [|f0 l0]; [split; reflexivity|].
    set (l := f0 :: l0).
    assert (E : flat_map (fun f => match parsed f with
                                   | Ok ([], _) => [TypeError]
                                   | Ok (_ :: _, _) => []
                                   | Raise e => [e]
                                   end) l =
                flat_map (fun f =>
                            match Hardcoded.process_file_with
                                    Hardcoded.RATES f with
                            | Ok _ => []
                            | Raise e => [e]
                            end) l).
    { apply flat_map_ext. intros f.
      change (Hardcoded.process_file_with Hardcoded.RATES f)
        with (Hardcoded.process_file f).
      destruct (parsed f) as [[[|r rows] acct]|e] eqn:Pf.
      - now rewrite (hardcoded_raises_without_rows f acct Pf).
      - destruct (hardcoded_priced_when_parsed f r rows acct Pf)
          as [df [-> _]].
        reflexivity.
      - now rewrite (hardcoded_raises_when_unparsed f e Pf). }
    rewrite E. clear E.
    destruct (hardcoded_lines_announced Hardcoded.RATES l) as [A R].
    unfold Hardcoded.process_gbd_files, Hardcoded.process_gbd_files_with.
    change (match l with [] => _ | _ :: _ => ?x end) with x.
    rewrite hardcoded_loop. cbn [app].
    destruct (flat_map (Hardcoded.file_data Hardcoded.RATES) l);
      cbn [printed announced reported];
      rewrite !announced_app, !reported_app, A, R; cbn [announced reported].
    + now rewrite !app_nil_r.
    + destruct (announced_summary (fun pc : string * float =>
                                     PeriodCost (fst pc) (snd pc))
                  (groupby_cost (concat (l1 :: l2)))
                  (fun _ => eq_refl)) as [-> ->].
      now rewrite !app_nil_r.
  - intros self. destruct l as [|f0 l0]; [split; reflexivity|].
    set (l := f0 :: l0).
    destruct (configurable_lines_announced self l) as [A R].
    unfold Configurable.process_folder.
    change (match l with [] => _ | _ :: _ => ?x end) with x.
    rewrite configurable_loop. cbn [app].
    destruct (flat_map (Configurable.file_data self) l);
      cbn [printed announced reported];
      rewrite ?announced_app, ?reported_app, A, R; cbn [announced reported].
    + auto.
    + destruct (announced_summary
                  (fun s : string * (float * float) =>
                     PeriodNetCost (fst s) (fst (snd s)) (snd (snd s)))
                  (groupby_net_cost (concat (l1 :: l2)))
                  (fun _ => eq_refl)) as [-> ->].
      now rewrite !app_nil_r.
Qed.


End Batches.


(* ================================================================== *)
(** * The configurable processor on the files it is given *)
(* ================================================================== *)

Section ConfigurableRows.

Import Configurable.

Lemma season_entry self r b :
  (s <- get_season self (Date r) ;; Ok (r, s)) = Ok b ->
  fst b = r /\ get_season self (Date r) = Ok (snd b).
Proof.
  intros H. apply bind_Ok in H. destruct H as [s [S H]].
  inversion H; subst. auto.
Qed.

Lemma configurable_file_shape self f df acct :
  process_file self f = Ok (df, acct) ->
  exists rows,
    parsed f = Ok (rows, acct) /\
    map source df = rows /\
    Forall (fun p => account p = acct) df /\
    (forall r, In r rows -> classifies self r) /\
    rows <> [].
Proof.
  unfold process_file. intros H.
  apply bind_Ok in H. destruct H as [[rows acct'] [P H]]. cbn [fst snd] in H.
  assert (N : rows <> []) by (intros ->; discriminate).
  assert (H' : (c1 <- season_column self rows ;;
                c2 <- period_column self c1 ;;
                c3 <- rate_column self c2 ;;
                df <- cost_column self acct' c3 ;;
                Ok (df, acct')) = Ok (df, acct))
    by (destruct rows; [discriminate | exact H]).
  clear H. rename H' into H.
  apply bind_Ok in H. destruct H as [c1 [C1 H]].
  apply bind_Ok in H. destruct H as [c2 [C2 H]].
  apply bind_Ok in H. destruct H as [c3 [C3 H]].
  apply bind_Ok in H. destruct H as [df' [C4 H]].
  inversion H; subst df' acct'. clear H.
  exists rows. split; [assumption|]. split; [|split; [|split; [|exact N]]].
  - unfold season_column in C1. unfold period_column in C2.
    unfold rate_column in C3. unfold cost_column in C4.
    assert (S4 : map source df = map (fun x => fst (fst (fst x))) c3).
    { eapply mapM_map; [|exact C4].
      intros x p F. simpl in F. destruct (snd x); [discriminate|].
      now inversion F. }
    assert (S3 : map (fun x => fst (fst (fst x))) c3
                 = map (fun x => fst (fst x)) c2).
    { eapply mapM_map; [|exact C3].
      intros x b F. simpl in F. apply bind_Ok in F.
      destruct F as [re [_ F]]. now inversion F. }
    assert (S2 : map (fun x => fst (fst x)) c2 = map fst c1).
    { eapply mapM_map; [|exact C2].
      intros x b F. simpl in F. apply bind_Ok in F.
      destruct F as [t [_ F]]. now inversion F. }
    assert (S1 : map fst c1 = map (fun x => x) rows).
    { eapply mapM_map; [|exact C1].
      intros x b F. now apply season_entry in F. }
    rewrite S4, S3, S2, S1. apply map_id.
  - apply Forall_forall. intros p Hp.
    destruct (mapM_In _ _ _ C4 p Hp) as [x [_ F4]]. simpl in F4.
    destruct (snd x); [discriminate|]. now inversion F4.
  - intros r Hr.
    destruct (mapM_covers _ _ _ C1 r Hr) as [[r1 s] [H1 F1]].
    apply season_entry in F1. simpl in F1. destruct F1 as [-> S].
    destruct (mapM_covers _ _ _ C2 _ H1) as [[[r2 s2] t] [H2 F2]].
    simpl in F2. apply bind_Ok in F2. destruct F2 as [t' [T F2]].
    inversion F2; subst r2 s2 t'. clear F2.
    destruct (mapM_covers _ _ _ C3 _ H2) as [[[[r3 s3] t3] re] [H3 F3]].
    simpl in F3. apply bind_Ok in F3. destruct F3 as [re' [L F3]].
    inversion F3; subst r3 s3 t3 re'. clear F3.
    destruct (mapM_covers _ _ _ C4 _ H3) as [p [_ F4]].
    simpl in F4. destruct re as [ms|rate]; [discriminate|].
    exists s, t, rate. auto.
Qed.

Lemma configurable_file_total self f rows acct :
  parsed f = Ok (rows, acct) -> rows <> [] ->
  (forall r, In r rows -> classifies self r) ->
  exists df, process_file self f = Ok (df, acct).
Proof.
  intros P N H. unfold process_file. rewrite P. cbn [bind fst snd].
  destruct rows as [|r0 rows0] eqn:Erows; [congruence|].
  rewrite <- Erows in *. clear N Erows r0 rows0.
  assert (E1 : exists c1, season_column self rows = Ok c1).
  { apply mapM_total. intros r Hr.
    destruct (H r Hr) as (s & _ & _ & S & _).
    rewrite S. simpl. now eexists. }
  destruct E1 as [c1 C1]. rewrite C1. cbn [bind].
  assert (E2 : exists c2, period_column self c1 = Ok c2).
  { apply mapM_total. intros [r s] H1.
    destruct (mapM_In _ _ _ C1 _ H1) as [r' [Hr F1]].
    apply season_entry in F1. simpl in F1. destruct F1 as [<- _].
    destruct (H _ Hr) as (_ & t & _ & _ & T & _).
    simpl. rewrite T. simpl. now eexists. }
  destruct E2 as [c2 C2]. rewrite C2. cbn [bind].
  assert (E3 : exists c3, rate_column self c2 = Ok c3).
  { apply mapM_total. intros [[r s] t] H2.
    destruct (mapM_In _ _ _ C2 _ H2) as [[r' s'] [H1 F2]].
    simpl in F2. apply bind_Ok in F2. destruct F2 as [t' [T F2]].
    inversion F2; subst r' s' t'. clear F2.
    destruct (mapM_In _ _ _ C1 _ H1) as [r' [Hr F1]].
    apply season_entry in F1. simpl in F1. destruct F1 as [<- S].
    destruct (H _ Hr) as (s0 & t0 & rate & S0 & T0 & L).
    assert (s0 = s) by congruence. subst s0.
    assert (t0 = t) by congruence. subst t0.
    simpl. rewrite L. simpl. now eexists. }
  destruct E3 as [c3 C3]. rewrite C3. cbn [bind].
  assert (E4 : exists df, cost_column self acct c3 = Ok df).
  { apply mapM_total. intros [[[r s] t] re] H3.
    destruct (mapM_In _ _ _ C3 _ H3) as [[[r' s'] t'] [H2 F3]].
    simpl in F3. apply bind_Ok in F3. destruct F3 as [re' [L F3]].
    inversion F3; subst r' s' t' re'. clear F3.
    destruct (mapM_In _ _ _ C2 _ H2) as [[r' s'] [H1 F2]].
    simpl in F2. apply bind_Ok in F2. destruct F2 as [t' [T F2]].
    inversion F2; subst r' s' t'. clear F2.
    destruct (mapM_In _ _ _ C1 _ H1) as [r' [Hr F1]].
    apply season_entry in F1. simpl in F1. destruct F1 as [<- S].
    destruct (H _ Hr) as (s0 & t0 & rate & S0 & T0 & L0).
    assert (s0 = s) by congruence. subst s0.
    assert (t0 = t) by congruence. subst t0.
    assert (re = Price rate) by congruence. subst re.
    simpl. now eexists. }
  destruct E4 as [df C4]. rewrite C4. cbn [bind]. now exists df.
Qed.

Lemma configurable_raises_without_rows self f acct :
  parsed f = Ok ([], acct) -> process_file self f = Raise TypeError.
Proof. intros P. unfold process_file. now rewrite P. Qed.

(** The configurable processor processes a file exactly when ingestion
    delivered it with at least one interval and the season, the tier and a
    price resolve for each of its intervals; the frame then has one row
    per interval, in the order of the intervals, each with the account of
    the file.  A file delivered without any interval raises TypeError,
    whatever the schedule. *)
Theorem configurable_file_succeeds_iff (self : SDGEProcessor) (f : gbd_file) :
  ((exists df acct, process_file self f = Ok (df, acct)) <->
   (exists r rows acct,
       parsed f = Ok (r :: rows, acct) /\
       forall x, In x (r :: rows) -> classifies self x)) /\
  (forall df acct,
      process_file self f = Ok (df, acct) ->
      exists rows,
        parsed f = Ok (rows, acct) /\ map source df = rows /\
        Forall (fun p => account p = acct) df) /\
  (forall acct,
      parsed f = Ok ([], acct) -> process_file self f = Raise TypeError).
Proof.
  split; [|split].
  - split.
    + intros [df [acct H]].
      destruct (configurable_file_shape _ _ _ _ H)
        as (rows & P & _ & _ & C & N).
      destruct rows as [|r rows]; [congruence|].
      now exists r, rows, acct.
    + intros [r [rows [acct [P C]]]].
      destruct (configurable_file_total self _ _ _ P) as [df H];
        [discriminate | exact C |].
      now exists df, acct.
  - intros df acct H.
    destruct (configurable_file_shape _ _ _ _ H) as (rows & P & S & A & _).
    now exists rows.
  - apply configurable_raises_without_rows.
Qed.

End ConfigurableRows.

(* ================================================================== *)
(** * What loading keeps of the holidays and leaves unchecked *)
(* ================================================================== *)

Section Holidays.

Import Configurable.

Lemma digit_bound (c : ascii) (x : Z) : digit c = Some x -> 0 <= x <= 9.
Proof.
  unfold digit.
  destruct (Z.leb_spec 48 (Z.of_N (N_of_ascii c))),
           (Z.leb_spec (Z.of_N (N_of_ascii c)) 57); simpl;
    intros E; inversion E; lia.
Qed.

Lemma parse_Y_bound (s r : string) (y : Z) :
  parse_Y s = Some (y, r) -> 0 <= y <= 9999.
Proof.
  unfold parse_Y.
  destruct s as [|a [|b [|c [|d s]]]]; try discriminate.
  destruct (digit a) as [x1|] eqn:A; [|discriminate].
  destruct (digit b) as [x2|] eqn:B; [|discriminate].
  destruct (digit c) as [x3|] eqn:C; [|discriminate].
  destruct (digit d) as [x4|] eqn:D; [|discriminate].
  intros H.
  replace y with (1000 * x1 + 100 * x2 + 10 * x3 + x4) by congruence.
  apply digit_bound in A. apply digit_bound in B.
  apply digit_bound in C. apply digit_bound in D. lia.
Qed.

Lemma parse_1or2_cases (ok : Z -> Z -> bool) (s r : string) (v : Z) :
  parse_1or2 ok s = Some (v, r) ->
  1 <= v <= 9 \/
  exists x y, 0 <= x <= 9 /\ 0 <= y <= 9 /\ ok x y = true /\ v = 10 * x + y.
Proof.
  unfold parse_1or2. destruct s as [|a s]; [discriminate|].
  destruct (digit a) as [x|] eqn:A; [|discriminate].
  apply digit_bound in A.
  assert (One : (if 1 <=? x then Some (x, s) else None) = Some (v, r) ->
                1 <= v <= 9).
  { destruct (Z.leb_spec 1 x); [|discriminate].
    intros E. inversion E; subst. lia. }
  destruct s as [|b s']; [intros H; left; now apply One|].
  destruct (digit b) as [y|] eqn:B; [|intros H; left; now apply One].
  apply digit_bound in B.
  destruct (ok x y) eqn:K; [|intros H; left; now apply One].
  intros H. right. exists x, y.
  repeat split; try tauto; try lia. congruence.
Qed.

Lemma parse_m_bound (s r : string) (m : Z) :
  parse_m s = Some (m, r) -> 1 <= m <= 12.
Proof.
  intros H. apply parse_1or2_cases in H.
  destruct H as [H | (x & y & Hx & Hy & K & ->)]; [lia|].
  apply orb_true_iff in K. destruct K as [K | K];
    apply andb_true_iff in K; destruct K as [K1 K2].
  - apply Z.eqb_eq in K1. apply Z.leb_le in K2. lia.
  - apply Z.eqb_eq in K1. apply Z.leb_le in K2. lia.
Qed.

Lemma parse_d_bound (s r : string) (d : Z) :
  parse_d s = Some (d, r) -> 1 <= d.
Proof.
  unfold parse_d.
  destruct (parse_1or2 _ s) as [[v r']|] eqn:P.
  - intros H. inversion H; subst.
    apply parse_1or2_cases in P.
    destruct P as [P | (x & y & Hx & Hy & K & ->)]; [lia|].
    repeat (apply orb_true_iff in K; destruct K as [K | K]);
      try (apply andb_true_iff in K; destruct K as [K1 K2]);
      repeat match goal with
             | H : (_ =? _) = true |- _ => apply Z.eqb_eq in H
             | H : (_ <=? _) = true |- _ => apply Z.leb_le in H
             end; lia.
  - destruct s as [|a [|b s']]; try discriminate;
      destruct a as [[] [] [] [] [] [] [] []]; try discriminate.
    destruct (digit b) as [y|]; [|discriminate].
    destruct (Z.leb_spec 1 y); [|discriminate].
    intros E. inversion E; subst. lia.
Qed.

Lemma strptime_calendar (s : string) (d : date) :
  strptime_Ymd s = Ok d ->
  1 <= year d <= 9999 /\ 1 <= month d <= 12 /\
  1 <= day d <= days_in_month (year d) (month d).
Proof.
  unfold strptime_Ymd.
  destruct (parse_Y s) as [[y s1]|] eqn:PY; [|discriminate].
  destruct (expect_dash s1) as [s2|]; [|discriminate].
  destruct (parse_m s2) as [[m s3]|] eqn:PM; [|discriminate].
  destruct (expect_dash s3) as [s4|]; [|discriminate].
  destruct (parse_d s4) as [[dd [|c s5]]|] eqn:PD; try discriminate.
  destruct (Z.leb_spec 1 y); [|discriminate].
  destruct (Z.leb_spec dd (days_in_month y m)); [|discriminate].
  simpl. intros E. inversion E; subst. simpl.
  apply parse_Y_bound in PY. apply parse_m_bound in PM.
  apply parse_d_bound in PD. lia.
Qed.

Lemma init_keeps (cfg : config) (self : SDGEProcessor) :
  init cfg = Ok self ->
  self_config self = cfg /\
  exists hs, holidays cfg = Some hs /\
             mapM strptime_Ymd hs = Ok (self_holidays self).
Proof.
  unfold init, key. intros H.
  destruct (holidays cfg) as [hs|]; simpl in H; [|discriminate].
  destruct (mapM strptime_Ymd hs) as [ds|e] eqn:M; simpl in H; [|discriminate].
  inversion H; subst. simpl. split; [reflexivity|]. now exists hs.
Qed.

(** After a load that succeeded, a date is a holiday exactly when some
    entry of the document's holiday list reads as that date: the match is
    on the date, not on the way the entry is spelled. *)
Theorem holiday_iff_some_entry_reads_as_it
    (cfg : config) (self : SDGEProcessor) (hs : list string) (d : date) :
  init cfg = Ok self -> holidays cfg = Some hs ->
  (is_holiday self d = true <->
   exists h, In h hs /\ strptime_Ymd h = Ok d).
Proof.
  intros I Hh. destruct (init_keeps _ _ I) as [_ [hs' [Hh' M]]].
  assert (hs' = hs) by congruence. subst hs'.
  unfold is_holiday. rewrite existsb_exists. split.
  - intros [d' [Hd' E]]. apply date_eqb_eq in E. subst d'.
    destruct (mapM_In _ _ _ M d Hd') as [h [Hin P]]. now exists h.
  - intros [h [Hin P]].
    destruct (mapM_covers _ _ _ M h Hin) as [d' [Hd' P']].
    assert (d' = d) by congruence. subst d'.
    exists d. split; [assumption | now apply date_eqb_eq].
Qed.

Lemma holiday_iff_some_entry_reads_as_it_witness :
  exists self,
    init unpadded_config = Ok self /\
    is_holiday self (mkdate 2025 7 4) = true /\
    is_holiday self (mkdate 2025 7 5) = false.
Proof.
  eexists. split; [reflexivity|]. split.
  - apply (proj2 (holiday_iff_some_entry_reads_as_it unpadded_config _
                    ["2025-7-4"; "2025-12-25"] (mkdate 2025 7 4)
                    eq_refl eq_refl)).
    exists "2025-7-4". split; [now left | reflexivity].
  - reflexivity.
Defined.

(** A load that succeeded keeps one date per entry of the holiday list, in
    the order of the list, and every one is a date of the calendar: a year
    from 1 to 9999, a month from 1 to 12 and a day of that month. *)
Theorem loaded_holidays_are_calendar_dates
    (cfg : config) (self : SDGEProcessor) (hs : list string) :
  init cfg = Ok self -> holidays cfg = Some hs ->
  List.length (self_holidays self) = List.length hs /\
  map Ok (self_holidays self) = map strptime_Ymd hs /\
  Forall (fun d => 1 <= year d <= 9999 /\ 1 <= month d <= 12 /\
                   1 <= day d <= days_in_month (year d) (month d))
         (self_holidays self).
Proof.
  intros I Hh. destruct (init_keeps _ _ I) as [_ [hs' [Hh' M]]].
  assert (hs' = hs) by congruence. subst hs'.
  assert (E : map Ok (self_holidays self) = map strptime_Ymd hs).
  { eapply mapM_map; [|exact M]. intros h d P. now symmetry. }
  split; [|split].
  - apply (f_equal (@List.length _)) in E. now rewrite !length_map in E.
  - exact E.
  - apply Forall_forall. intros d Hd.
    destruct (mapM_In _ _ _ M d Hd) as [h [_ P]].
    eapply strptime_calendar; exact P.
Qed.

Lemma loaded_holidays_are_calendar_dates_witness :
  List.length (self_holidays builtin_processor) = 8%nat /\
  Forall (fun d => 1 <= year d <= 9999 /\ 1 <= month d <= 12 /\
                   1 <= day d <= days_in_month (year d) (month d))
         (self_holidays builtin_processor).
Proof.
  destruct (loaded_holidays_are_calendar_dates builtin_config
              builtin_processor _ eq_refl eq_refl) as (L & _ & F).
  split; [exact L | exact F].
Defined.

(** Loading does not read the seasons: a description without a summer
    entry is loaded, and then the processing of every file with at least
    one interval raises KeyError 'summer', so that a folder of such files
    saves nothing. *)
Theorem missing_season_fails_each_file
    (cfg : config) (self : SDGEProcessor) rs :
  init cfg = Ok self ->
  rates cfg = Some rs -> dict_get rs "summer" = None ->
  (forall f r rows acct,
      parsed f = Ok (r :: rows, acct) ->
      process_file self f = Raise (KeyError "summer")) /\
  (forall l,
      (forall f, In f l -> exists r rows acct,
                   parsed f = Ok (r :: rows, acct)) ->
      saved (process_folder self l) = None).
Proof.
  intros I Hr Hs. destruct (init_keeps _ _ I) as [C _].
  assert (P : forall f r rows acct,
             parsed f = Ok (r :: rows, acct) ->
             process_file self f = Raise (KeyError "summer")).
  { intros f r rows acct Pf. unfold process_file. rewrite Pf.
    cbn [bind fst snd]. cbv iota. unfold season_column. cbn [mapM].
    unfold get_season, key, getitem. rewrite C, Hr. cbn [bind].
    rewrite Hs. reflexivity. }
  split; [exact P|].
  intros l H. apply configurable_nothing_saved. intros f Hf.
  destruct (H f Hf) as (r & rows & acct & Pf).
  exists (KeyError "summer"). eapply P; exact Pf.
Qed.

Lemma missing_season_fails_each_file_witness :
  exists self,
    init seasonless_config = Ok self /\
    process_file self credit_file = Raise (KeyError "summer") /\
    saved (process_folder self [credit_file; peak_file]) = None.
Proof.
  eexists. split; [reflexivity|].
  destruct (missing_season_fails_each_file seasonless_config _ []
              eq_refl eq_refl eq_refl) as [P S].
  split.
  - eapply P. reflexivity.
  - apply S. intros f [<- | [<- | []]]; repeat eexists.
Defined.

End Holidays.

(* ================================================================== *)
(** * Reading the lines of a file *)
(* ================================================================== *)

Section Lines.

Import Ingest.

Lemma prefix_append (sub s : string) :
  String.prefix sub s = true <-> exists b, s = (sub ++ b)%string.
Proof.
  revert s. induction sub as [|c sub IH]; intros s; simpl.
  - destruct s; split; try reflexivity; intros _; eexists; reflexivity.
  - destruct s as [|x s]; simpl.
    + split; [discriminate | intros [b E]; discriminate].
    + destruct (Ascii.ascii_dec c x) as [->|N].
      * rewrite IH. split; intros [b E]; exists b.
        -- now rewrite E.
        -- now inversion E.
      * split; [discriminate | intros [b E]; inversion E; congruence].
Qed.

(** [sub in s] holds exactly when [s] is some text, [sub], some text. *)
Lemma substring_in_spec (sub s : string) :
  substring_in sub s = true <-> exists a b, s = (a ++ sub ++ b)%string.
Proof.
  induction s as [|x s IH].
  - cbn [substring_in]. rewrite orb_false_r, prefix_append. split.
    + intros [b E]. now exists EmptyString, b.
    + intros [[|y a] [b E]]; [now exists b | discriminate].
  - cbn [substring_in]. rewrite orb_true_iff, prefix_append, IH. split.
    + intros [[b E] | [a [b E]]].
      * now exists EmptyString, b.
      * exists (String x a), b. now rewrite E.
    + intros [[|y a] [b E]].
      * left. now exists b.
      * right. inversion E. now exists a, b.
Qed.

Lemma first_header_spec (lines : list string) (k : nat) :
  match first_header lines k with
  | Some i =>
      (k <= i)%nat /\
      (exists line, nth_error lines (i - k) = Some line /\
                    substring_in header_marker line = true) /\
      (forall j line, (j < i - k)%nat -> nth_error lines j = Some line ->
                      substring_in header_marker line = false)
  | None => Forall (fun line => substring_in header_marker line = false) lines
  end.
Proof.
  revert k. induction lines as [|l lines IH]; intros k; cbn [first_header].
  - constructor.
  - destruct (substring_in header_marker l) eqn:M.
    + split; [lia|]. rewrite Nat.sub_diag. split.
      * now exists l.
      * intros j line Hj. lia.
    + specialize (IH (S k)). destruct (first_header lines (S k)) as [i|].
      * destruct IH as (Hk & (line & Hn & Hm) & He).
        split; [lia|].
        replace (i - k)%nat with (S (i - S k)) by lia. split.
        -- now exists line.
        -- intros [|j] line' Hj Hn'.
           ++ simpl in Hn'. injection Hn' as <-. exact M.
           ++ simpl in Hn'. eapply He; [|exact Hn']. lia.
      * now constructor.
Qed.

(** The header row is the index of the first line that holds the marker
    'Meter Number,Date,Start Time'; when no line holds it the header row
    is 0, as when the first line does, and nothing is raised. *)
Theorem header_row_is_first_marker_line (lines : list string) :
  ((exists line, In line lines /\
                 exists a b, line = (a ++ header_marker ++ b)%string) ->
   (exists line a b,
       nth_error lines (header_row lines) = Some line /\
       line = (a ++ header_marker ++ b)%string) /\
   (forall j line, (j < header_row lines)%nat ->
                   nth_error lines j = Some line ->
                   ~ exists a b, line = (a ++ header_marker ++ b)%string)) /\
  ((forall line, In line lines ->
                 ~ exists a b, line = (a ++ header_marker ++ b)%string) ->
   header_row lines = 0%nat).
Proof.
  unfold header_row. pose proof (first_header_spec lines 0) as S.
  destruct (first_header lines 0) as [i|].
  - destruct S as (_ & (line & Hn & Hm) & He).
    rewrite Nat.sub_0_r in Hn, He. split.
    + intros _. split.
      * apply substring_in_spec in Hm. destruct Hm as [a [b E]].
        now exists line, a, b.
      * intros j line' Hj Hn' Hc. apply substring_in_spec in Hc.
        rewrite (He j line' Hj Hn') in Hc. discriminate.
    + intros H. exfalso. apply (H line).
      * eapply nth_error_In; exact Hn.
      * now apply substring_in_spec.
  - split; [|reflexivity].
    intros [line [Hin Hc]]. exfalso.
    rewrite Forall_forall in S. apply substring_in_spec in Hc.
    rewrite (S line Hin) in Hc. discriminate.
Qed.

Lemma header_row_is_first_marker_line_witness :
  header_row ["Name,A"; "x"; "Meter Number,Date,Start Time,Duration"]
    = 2%nat /\
  header_row ["Name,A"; "x"] = 0%nat.
Proof.
  split.
  - destruct (proj1 (header_row_is_first_marker_line
                       ["Name,A"; "x";
                        "Meter Number,Date,Start Time,Duration"]))
      as [_ _].
    + exists "Meter Number,Date,Start Time,Duration". split.
      * right. right. now left.
      * now exists EmptyString, ",Duration".
    + reflexivity.
  - apply (proj2 (header_row_is_first_marker_line ["Name,A"; "x"])).
    intros line [<- | [<- | []]] Hc;
      apply substring_in_spec in Hc; discriminate.
Defined.

(** ** The fields of the metadata block *)

Lemma split_not_nil (sep : ascii) (s : string) : split sep s <> [].
Proof.
  induction s as [|c s IH]; simpl; [discriminate|].
  destruct (Ascii.eqb c sep); [discriminate|].
  destruct (split sep s); [contradiction | discriminate].
Qed.

(** A line has a second field exactly when it holds a separator. *)
Lemma split_second (sep : ascii) (s : string) :
  (exists f, item (split sep s) 1 = Got f) <-> char_in s sep = true.
Proof.
  induction s as [|c s IH]; simpl.
  - split; [intros [f H]; discriminate | discriminate].
  - rewrite (Ascii.eqb_sym sep c). destruct (Ascii.eqb c sep) eqn:E; simpl.
    + split; [reflexivity | intros _].
      pose proof (split_not_nil sep s) as N.
      destruct (split sep s) as [|h t]; [contradiction|].
      now exists h.
    + rewrite <- IH.
      pose proof (split_not_nil sep s) as N.
      destruct (split sep s) as [|h [|h' t]]; [contradiction | |];
        unfold item; simpl; split; intros [f H]; try discriminate;
        eexists; reflexivity.
Qed.

Lemma split_cut (sep : ascii) (pre rest : string) :
  char_in pre sep = false ->
  split sep (pre ++ String sep rest) = pre :: split sep rest.
Proof.
  induction pre as [|c pre IH]; simpl; intros H.
  - now rewrite Ascii.eqb_refl.
  - apply orb_false_iff in H. destruct H as [Hc Hp].
    rewrite Ascii.eqb_sym in Hc. rewrite Hc, (IH Hp). reflexivity.
Qed.

Lemma split_last (sep : ascii) (s : string) :
  char_in s sep = false -> split sep s = [s].
Proof.
  induction s as [|c s IH]; simpl; intros H; [reflexivity|].
  apply orb_false_iff in H. destruct H as [Hc Hp].
  rewrite Ascii.eqb_sym in Hc. now rewrite Hc, (IH Hp).
Qed.

Lemma item_In {A : Type} (l : list A) (i : nat) :
  (exists a, item l i = Got a) \/ item l i = Failed IndexError.
Proof.
  unfold item. destruct (nth_error l i); [left; now eexists | now right].
Qed.

Lemma rstrip_cons (q : ascii -> bool) (c : ascii) (s : string) :
  rstrip_with q (String c s) =
  match rstrip_with q s with
  | EmptyString => if q c then EmptyString else String c EmptyString
  | String x r => String c (String x r)
  end.
Proof. reflexivity. Qed.

(** Stripping with a smaller set of characters after stripping changes
    nothing. *)
Lemma rstrip_within (p q : ascii -> bool) (s : string) :
  (forall c, q c = true -> p c = true) ->
  rstrip_with q (rstrip_with p s) = rstrip_with p s.
Proof.
  intros Hq. induction s as [|c s IH]; simpl; [reflexivity|].
  destruct (rstrip_with p s) as [|x r] eqn:R.
  - destruct (p c) eqn:Pc; simpl; [reflexivity|].
    destruct (q c) eqn:Qc; [|reflexivity].
    apply Hq in Qc. congruence.
  - rewrite rstrip_cons, IH. reflexivity.
Qed.

Lemma rstrip_head (p : ascii -> bool) (c : ascii) (s : string) :
  p c = false -> exists r, rstrip_with p (String c s) = String c r.
Proof.
  intros Pc. simpl. destruct (rstrip_with p s); [rewrite Pc|]; now eexists.
Qed.

Lemma lstrip_head (p : ascii -> bool) (s : string) :
  lstrip_with p s = EmptyString \/
  exists c r, lstrip_with p s = String c r /\ p c = false.
Proof.
  induction s as [|c s IH]; simpl; [now left|].
  destruct (p c) eqn:Pc; [exact IH|].
  right. now exists c, s.
Qed.

Lemma strip_within (p q : ascii -> bool) (s : string) :
  (forall c, q c = true -> p c = true) ->
  strip_with q (strip_with p s) = strip_with p s.
Proof.
  intros Hq. unfold strip_with.
  destruct (lstrip_head p s) as [-> | [c [r [-> Pc]]]]; [reflexivity|].
  destruct (rstrip_head p c r Pc) as [r' E].
  assert (Qc : q c = false).
  { destruct (q c) eqn:Qc; [|reflexivity]. apply Hq in Qc. congruence. }
  rewrite E. cbn [lstrip_with]. rewrite Qc, <- E.
  now apply rstrip_within.
Qed.

Lemma CR_is_space (c : ascii) : char_in CR c = true -> isspace c = true.
Proof.
  unfold CR. simpl. rewrite orb_false_r. intros H.
  apply Ascii.eqb_eq in H. subst c. reflexivity.
Qed.

Lemma field_cr_same (lines : list string) (i : nat) :
  field_cr lines i = field lines i.
Proof.
  unfold field_cr, field, strip_chars, strip.
  destruct (item lines i) as [line|e]; simpl; [|reflexivity].
  destruct (item (split "," line) 1) as [f|e]; simpl; [|reflexivity].
  f_equal. apply strip_within. exact CR_is_space.
Qed.

(** The two processors read the metadata block alike: the further
    [strip('\r')] of the configurable processor removes nothing that
    [strip()] has left, and stripping twice is stripping once. *)
Theorem both_processors_read_the_same_account
    (raw : Type) (read_csv : nat -> result raw) (lines : list string) :
  account_info_cr lines = account_info_of lines /\
  read_file raw read_csv lines = parse_gbd_file raw read_csv lines /\
  (forall s, strip_chars (strip s) CR = strip s) /\
  (forall s, strip (strip s) = strip s).
Proof.
  assert (A : account_info_cr lines = account_info_of lines).
  { unfold account_info_cr, account_info_of. now rewrite !field_cr_same. }
  split; [exact A|]. split; [|split].
  - unfold read_file, parse_gbd_file. now rewrite A.
  - intros s. apply strip_within. exact CR_is_space.
  - intros s. apply strip_within. auto.
Qed.

(** The four lines of the metadata block that are read: 0, 1, 2 and 6. *)
Lemma field_outcome (lines : list string) (i : nat) :
  if labelled lines i
  then exists f, field lines i = Got f
  else field lines i = Failed IndexError.
Proof.
  unfold labelled, field.
  change (item lines i) with (match nth_error lines i with
                              | Some a => Got a
                              | None => Failed IndexError
                              end).
  destruct (nth_error lines i) as [line|]; [|reflexivity]. simpl.
  destruct (char_in line ",") eqn:C.
  - apply split_second in C. destruct C as [f ->]. simpl. now eexists.
  - destruct (item_In (split "," line) 1) as [[f Hf] | ->]; [|reflexivity].
    assert (T : char_in line "," = true) by (apply split_second; now exists f).
    congruence.
Qed.

(** [parse_gbd_file] first reads the table from the header row on, and an
    exception of that reading is its outcome.  Otherwise it succeeds
    exactly when the lines 0, 1, 2 and 6 exist and each holds a comma, and
    raises IndexError when one does not; in particular a file of fewer
    than seven lines is never parsed, and the absence of the header marker
    is no error. *)
Theorem parse_needs_the_four_labelled_lines
    (raw : Type) (read_csv : nat -> result raw) (lines : list string) :
  (forall e, read_csv (header_row lines) = Raise e ->
             parse_gbd_file raw read_csv lines = Failed (Library e)) /\
  (forall df,
      read_csv (header_row lines) = Ok df ->
      if labelled lines 0 && labelled lines 1 && labelled lines 2
         && labelled lines 6
      then exists a, parse_gbd_file raw read_csv lines = Got (df, a)
      else parse_gbd_file raw read_csv lines = Failed IndexError) /\
  ((List.length lines < 7)%nat ->
   forall df a, parse_gbd_file raw read_csv lines <> Got (df, a)).
Proof.
  assert (P : forall df,
             read_csv (header_row lines) = Ok df ->
             if labelled lines 0 && labelled lines 1 && labelled lines 2
                && labelled lines 6
             then exists a, parse_gbd_file raw read_csv lines = Got (df, a)
             else parse_gbd_file raw read_csv lines = Failed IndexError).
  { intros df E. unfold parse_gbd_file. rewrite E.
    cbn [of_result and_then]. unfold account_info_of.
    pose proof (field_outcome lines 0) as F0.
    pose proof (field_outcome lines 1) as F1.
    pose proof (field_outcome lines 2) as F2.
    pose proof (field_outcome lines 6) as F6.
    destruct (labelled lines 0); [destruct F0 as [f0 ->] | now rewrite F0].
    destruct (labelled lines 1); [destruct F1 as [f1 ->] | now rewrite F1].
    destruct (labelled lines 2); [destruct F2 as [f2 ->] | now rewrite F2].
    destruct (labelled lines 6); [destruct F6 as [f6 ->] | now rewrite F6].
    simpl. now eexists. }
  split; [|split].
  - intros e E. unfold parse_gbd_file. now rewrite E.
  - exact P.
  - intros Hlen df a H.
    assert (L6 : labelled lines 6 = false).
    { unfold labelled.
      now rewrite (proj2 (nth_error_None lines 6)) by lia. }
    destruct (read_csv (header_row lines)) as [df'|e] eqn:E.
    + specialize (P df' eq_refl). rewrite L6, andb_false_r in P.
      congruence.
    + unfold parse_gbd_file in H. rewrite E in H. discriminate.
Qed.

Lemma string_app_nil (s : string) : (s ++ "")%string = s.
Proof. induction s as [|c s IH]; simpl; [reflexivity | now rewrite IH]. Qed.

(** A line 'label,value' with no other comma before the value ends gives
    the value without the blanks around it, whatever follows the next
    comma. *)
Theorem field_is_the_stripped_second_value
    (lines : list string) (i : nat) (label value rest : string) :
  nth_error lines i = Some (label ++ String "," value ++ rest)%string ->
  char_in label "," = false -> char_in value "," = false ->
  rest = EmptyString \/ (exists tail, rest = String "," tail) ->
  field lines i = Got (strip value) /\
  field_cr lines i = Got (strip value).
Proof.
  intros Hn Hl Hv Hr. rewrite field_cr_same.
  assert (F : field lines i = Got (strip value)); [|now split].
  unfold field.
  change (item lines i) with (match nth_error lines i with
                              | Some a => Got a
                              | None => Failed IndexError
                              end).
  rewrite Hn. cbn [and_then].
  change (String "," value ++ rest)%string
    with (String "," (value ++ rest))%string.
  rewrite (split_cut "," label _ Hl).
  destruct Hr as [-> | [tail ->]].
  - rewrite string_app_nil. rewrite (split_last "," value Hv). reflexivity.
  - rewrite (split_cut "," value _ Hv). reflexivity.
Qed.

Lemma field_is_the_stripped_second_value_witness :
  field ["Name, John Smith ,extra"] 0 = Got "John Smith" /\
  field_cr ["Name, John Smith ,extra"] 0 = Got "John Smith".
Proof.
  apply (field_is_the_stripped_second_value
           ["Name, John Smith ,extra"] 0 "Name" " John Smith " ",extra"
           eq_refl eq_refl eq_refl).
  right. now exists "extra".
Defined.

End Lines.

(* ================================================================== *)
(** * The resolver on a well-formed schedule *)
(* ================================================================== *)

Section Outcomes.

Import Configurable.

Lemma scan_never_raises periods hour :
  Forall (fun kv => fst kv = "special_periods" \/ exists l, snd kv = Hours l)
         periods ->
  exists found, scan_periods periods hour = Ok found.
Proof.
  induction 1 as [|[k v] rest Hkv _ IH]; simpl; [now eexists|].
  destruct Hkv as [Hk | [l Hv]]; simpl in *.
  - subst k. simpl. exact IH.
  - subst v. destruct (String.eqb k "special_periods"); [exact IH|].
    destruct (existsb (in_range hour) l); [now eexists | exact IH].
Qed.

(** When the day-type has a schedule whose tier entries are lists of
    ranges and whose override block, if there is one, is an object with
    its months, the resolver raises nothing and returns a tier for every
    hour and month, also for an hour that no range holds or that no clock
    shows. *)
Theorem resolver_total_on_well_formed_schedule
    (self : SDGEProcessor) tp periods (hour : Z) (wh : bool) (month : Z) :
  time_periods (self_config self) = Some tp ->
  dict_get tp (if wh then "weekend_holiday" else "weekday") = Some periods ->
  Forall (fun kv => fst kv = "special_periods" \/ exists l, snd kv = Hours l)
         periods ->
  (dict_get periods "special_periods" = None \/
   exists sp ms, dict_get periods "special_periods" = Some (Special sp) /\
                 months sp = Some ms) ->
  exists t, get_time_period self hour wh month = Ok t.
Proof.
  intros Htp Hp Hall Hsp.
  destruct (scan_never_raises periods hour Hall) as [[name|] Hs].
  - exists name. eapply base_match_returns; eassumption.
  - unfold get_time_period, key, getitem at 1.
    rewrite Htp. cbn [bind]. rewrite Hp. cbn [bind]. rewrite Hs. cbn [bind].
    unfold contains, getitem.
    destruct Hsp as [N | [sp [ms [S M]]]].
    + rewrite N. rewrite andb_false_r. now eexists.
    + rewrite S. destruct (negb wh); cbn [andb bind]; [|now eexists].
      rewrite M. cbn [key bind].
      destruct (isin month ms); [|now eexists].
      destruct (existsb (in_range hour) _); now eexists.
Qed.

Lemma resolver_total_on_well_formed_schedule_witness :
  exists t, get_time_period builtin_processor 99 false 3 = Ok t.
Proof.
  apply (resolver_total_on_well_formed_schedule builtin_processor _ _
           99 false 3 eq_refl eq_refl).
  - repeat (apply Forall_cons;
            [first [ left; reflexivity | right; eexists; reflexivity ] |]).
    apply Forall_nil.
  - right. eexists. eexists. split; reflexivity.
Defined.

End Outcomes.
